(** * Boost Prompt: a shallow embedding of the extension's workflow

    The development follows the TypeScript sources of the extension:
    [utils.ts] (model registry, preference, file eligibility, instruction
    file) and [boostPrompt.ts] (the boost workflow).  JavaScript strings are
    sequences of UTF-16 code units; the effects of the code (the output
    channel, the module-level model cache, the configuration, the file
    system, the notifications shown to the user, thrown exceptions) are
    threaded through a small state-and-exception monad. *)

From Stdlib Require Import String Ascii List PeanoNat NArith Bool.
Import ListNotations.

Set Implicit Arguments.

(* ================================================================== *)
(** ** JavaScript values used by the sources *)

Module JS.

(** A JavaScript string: its UTF-16 code units. *)
Definition jsstring := list N.

(** An ASCII literal of the source, as a JavaScript string. *)
Definition lit (s : string) : jsstring :=
  map N_of_ascii (list_ascii_of_string s).

(** The empty string. *)
Definition emptyString : jsstring := [].

(** [a === b] on strings. *)
Fixpoint eqb (a b : jsstring) : bool :=
  match a, b with
  | [], [] => true
  | x :: a', y :: b' => N.eqb x y && eqb a' b'
  | _, _ => false
  end.

(** Truthiness of a string: every string but the empty one. *)
Definition truthy (s : jsstring) : bool :=
  match s with [] => false | _ :: _ => true end.

(** [a || b] on strings. *)
Definition or (a b : jsstring) : jsstring :=
  if truthy a then a else b.

(** WhiteSpace and LineTerminator code points of ECMAScript, the ones
    [String.prototype.trim] strips.  All of them lie in the basic plane,
    so the test on code units is exact. *)
Definition isWhiteSpace (c : N) : bool :=
  (  (c =? 9) || (c =? 10) || (c =? 11) || (c =? 12) || (c =? 13)
  || (c =? 32) || (c =? 160) || (c =? 5760)
  || ((8192 <=? c) && (c <=? 8202))
  || (c =? 8232) || (c =? 8233) || (c =? 8239) || (c =? 8287)
  || (c =? 12288) || (c =? 65279))%N.

Fixpoint trimStart (s : jsstring) : jsstring :=
  match s with
  | c :: s' => if isWhiteSpace c then trimStart s' else s
  | [] => []
  end.

Definition trimEnd (s : jsstring) : jsstring :=
  rev (trimStart (rev s)).

(** [s.trim()] *)
Definition trim (s : jsstring) : jsstring :=
  trimEnd (trimStart s).

(** [s.split(re)] for a regular expression [re] that is a class of single
    code units: [cur] holds the segment being read, backwards.  The result
    is never empty; the empty string splits into one empty segment. *)
Fixpoint split_from (isSep : N -> bool) (s cur : jsstring) : list jsstring :=
  match s with
  | [] => [rev cur]
  | c :: s' =>
      if isSep c then rev cur :: split_from isSep s' []
      else split_from isSep s' (c :: cur)
  end.

Definition split (isSep : N -> bool) (s : jsstring) : list jsstring :=
  split_from isSep s [].

(** [arr.pop()]: the last element, [undefined] on an empty array. *)
Fixpoint pop {A : Type} (arr : list A) : option A :=
  match arr with
  | [] => None
  | [x] => Some x
  | _ :: arr' => pop arr'
  end.

(** [arr.includes(x)] on an array of strings. *)
Definition includes (arr : list jsstring) (x : jsstring) : bool :=
  existsb (fun y => eqb y x) arr.

(** A value that may be [undefined] or [null], as in
    [string[] | null | undefined]. *)
Inductive Nullable (A : Type) : Type :=
| Undefined : Nullable A
| Null : Nullable A
| Value : A -> Nullable A.
Arguments Undefined {A}.
Arguments Null {A}.

(** A thrown value, as [String(err)] renders it. *)
Definition JsError := jsstring.

(** How the evaluation of a call ends. *)
Inductive Completion (A : Type) : Type :=
| Normal : A -> Completion A
| Throw : JsError -> Completion A.
Arguments Throw {A} _.

End JS.
Import JS.

(* ================================================================== *)
(** ** The host: editor API, file system, glob library *)

Module Vscode.

(** [vscode.LanguageModelChatMessage.User(content)] *)
Inductive LanguageModelChatMessage : Type :=
| User (content : jsstring).

(** [response.text], an [AsyncIterable<string>]: fragments arrive one by
    one, and the iteration either completes or throws.  A stream that
    never ends has no representation here: on such a stream the loop of
    [boostPrompt] does not return. *)
Inductive AsyncIterable : Type :=
| Done : AsyncIterable
| Yield : jsstring -> AsyncIterable -> AsyncIterable
| Fail : JsError -> AsyncIterable.

(** A stream that delivers [chunks] in this order and then completes. *)
Fixpoint fragments (chunks : list jsstring) : AsyncIterable :=
  match chunks with
  | [] => Done
  | c :: rest => Yield c (fragments rest)
  end.

Record LanguageModelChatResponse : Type := { text : AsyncIterable }.

(** [vscode.LanguageModelChat].  [sendRequest] either throws or resolves;
    the code also tests the resolved response for falsiness, hence the
    [option].  Of its arguments only the messages are kept: the options
    are empty and the cancellation token is a fresh one at every call. *)
Record LanguageModelChat : Type := {
  id : jsstring;
  name : jsstring;
  family : jsstring;
  sendRequest :
    list LanguageModelChatMessage -> Completion (option LanguageModelChatResponse)
}.

Record ExtensionContext : Type := { globalStoragePath : jsstring }.

(** The [boostPrompt] section of the configuration: what
    [getConfiguration("boostPrompt").get(key, defaultValue)] returns for
    the two keys the sources read, as a function of the default passed. *)
Record WorkspaceConfiguration : Type := {
  get_filePatterns : list jsstring -> Nullable (list jsstring);
  get_preferredModel : jsstring -> jsstring
}.

(** An entry of the file system. *)
Inductive FileNode : Type :=
| Absent : FileNode
| File (content : jsstring) : FileNode
| Unreadable (err : JsError) : FileNode.

(** The items [selectModel] offers in the quick pick. *)
Record QuickPickItem : Type := {
  label : jsstring;
  description : jsstring;
  model : LanguageModelChat
}.

(** Calls made on [vscode.window], in order. *)
Inductive WindowCall : Type :=
| ShowErrorMessage (message : jsstring)
| ShowWarningMessage (message : jsstring) (items : list jsstring)
| ShowInformationMessage (message : jsstring)
| ShowQuickPick (items : list QuickPickItem) (title placeHolder : jsstring).

(** Lines appended to the [BoostPrompt] output channel.  A constructor
    stands for one template of the sources and carries the values
    interpolated in it. *)
Inductive LogLine : Type :=
| LogDiscovered (count : nat) (names : list jsstring)
    (* Discovered ${models.length} model(s): ${names.join(", ")} *)
| LogNoModelsFound                (* No available models found *)
| LogErrorDiscovering (err : JsError)  (* Error discovering models: ... *)
| LogSelectionCancelled           (* Model selection cancelled *)
| LogPreferredUpdated (modelName : jsstring)
    (* Preferred model updated to: ${modelName} *)
| LogNoPatterns                   (* No patterns configured - ENABLING FOR ALL FILES *)
| LogWildcard                     (* Wildcard "*" found - ENABLING FOR ALL FILES *)
| LogFullPath (fileName : jsstring)     (* Full path: "${fileName}" *)
| LogBasename (baseName : jsstring)     (* Basename: "${baseName}" *)
| LogPatterns (patterns : list jsstring) (* Patterns to match: [...] *)
| LogPattern (pattern : jsstring) (result : bool)
    (* "${pattern}": MATCH / NO MATCH *)
| LogFinal (matches : bool)       (* FINAL: ENABLED / DISABLED *)
| LogErrorReading (err : JsError) (* Error reading instruction file: ... *)
| LogNoModelsAvailable            (* No models available *)
| LogUsingPreferred (name : jsstring)   (* Using preferred: ${preferred.name} *)
| LogBoosting (chars : nat)       (* Boosting (${promptText.length} chars)... *)
| LogRequestFailed (err : JsError)      (* Request failed: ... *)
| LogNoResponse                   (* No response from model *)
| LogEmptyResponse                (* Empty response *)
| LogSuccess (before after : nat) (* Success: ${a} -> ${b} chars *)
| LogStreamFailed (err : JsError) (* Stream failed: ... *)
| LogUnexpected (err : JsError).  (* Unexpected error: ... *)

(** What the code can change or observe over time. *)
Record World : Type := {
  cachedAvailableModels : list LanguageModelChat; (* module variable of utils.ts *)
  configuration : WorkspaceConfiguration;
  fs : jsstring -> FileNode;
  outputChannel : list LogLine;                   (* oldest line first *)
  window : list WindowCall                        (* oldest call first *)
}.

(** What the surroundings answer: the host's discovery call, the user's
    replies to the dialogs, whether a configuration write is accepted, and
    the two library functions the sources import, [path.join] and
    [minimatch].  The sources put no guard around [minimatch], so its
    model may throw. *)
Record Host : Type := {
  selectChatModels : Completion (list LanguageModelChat);
  quickPickReply : list QuickPickItem -> option QuickPickItem;
  warningReply : jsstring -> list jsstring -> option jsstring;
  configurationUpdate : jsstring -> Completion unit;
  path_join : jsstring -> jsstring -> jsstring;
  minimatch : jsstring -> jsstring -> Completion bool
}.

End Vscode.
Import Vscode.

(* ================================================================== *)
(** ** The monad of the embedding: state and exceptions *)

Module Eff.

Definition M (A : Type) : Type := World -> Completion A * World.

Definition ret {A : Type} (a : A) : M A := fun w => (Normal a, w).

Definition throw {A : Type} (e : JsError) : M A := fun w => (Throw e, w).

Definition bind {A B : Type} (m : M A) (k : A -> M B) : M B :=
  fun w =>
    match m w with
    | (Normal a, w') => k a w'
    | (Throw e, w') => (Throw e, w')
    end.

(** [try { body } catch (err) { handler }]: the effects of [body] up to
    the throw stay. *)
Definition tryCatch {A : Type} (body : M A) (handler : JsError -> M A) : M A :=
  fun w =>
    match body w with
    | (Normal a, w') => (Normal a, w')
    | (Throw e, w') => handler e w'
    end.

(** [await] of a call whose outcome the surroundings decide. *)
Definition await {A : Type} (c : Completion A) : M A := fun w => (c, w).

Definition getWorld : M World := fun w => (Normal w, w).

Definition setWorld (w' : World) : M unit := fun _ => (Normal tt, w').

(** [boostPromptOutputChannel.appendLine(line)].  Writing to the output
    channel and showing a notification do not throw. *)
Definition appendLine (line : LogLine) : M unit :=
  fun w =>
    (Normal tt,
     {| cachedAvailableModels := cachedAvailableModels w;
        configuration := configuration w;
        fs := fs w;
        outputChannel := outputChannel w ++ [line];
        window := window w |}).

(** Records a call on [vscode.window]. *)
Definition windowCall (c : WindowCall) : M unit :=
  fun w =>
    (Normal tt,
     {| cachedAvailableModels := cachedAvailableModels w;
        configuration := configuration w;
        fs := fs w;
        outputChannel := outputChannel w;
        window := window w ++ [c] |}).

(** How a block inside a function body ends when it does not throw: with a
    [return] of the enclosing function, or by falling through to the next
    statement. *)
Inductive Flow (R A : Type) : Type :=
| Return : R -> Flow R A
| Next : A -> Flow R A.
Arguments Return {R A} _.
Arguments Next {R A} _.

(** The value a run returns, and the world it leaves. *)
Definition outcome {A : Type} (m : M A) (w : World) : Completion A := fst (m w).
Definition after {A : Type} (m : M A) (w : World) : World := snd (m w).

End Eff.
Import Eff.

Declare Scope eff_scope.
Delimit Scope eff_scope with eff.
Notation "x <- m ;; k" := (bind m (fun x => k))
  (at level 61, m at next level, right associativity) : eff_scope.
Notation "m ;;; k" := (bind m (fun _ => k))
  (at level 61, right associativity) : eff_scope.
Open Scope eff_scope.

(* ================================================================== *)
(** ** utils.ts *)

Module Utils.

(** *** Model management *)

(** [cachedAvailableModels = models] *)
Definition setCachedAvailableModels (models : list LanguageModelChat) : M unit :=
  fun w =>
    (Normal tt,
     {| cachedAvailableModels := models;
        configuration := configuration w;
        fs := fs w;
        outputChannel := outputChannel w;
        window := window w |}).

(** [({ id }) => id !== "auto"] *)
Definition notAuto (m : LanguageModelChat) : bool :=
  negb (JS.eqb (id m) (lit "auto")).

Definition initializeAndCacheModels (h : Host) : M unit :=
  tryCatch
    (models <- await (selectChatModels h) ;;
     let filteredModels := filter notAuto models in
     if negb (Nat.eqb (length models) 0) then
       setCachedAvailableModels filteredModels ;;;
       appendLine (LogDiscovered (length models) (map name models))
     else
       appendLine LogNoModelsFound)
    (fun err => appendLine (LogErrorDiscovering err)).

Definition getAvailableModels : M (list LanguageModelChat) :=
  w <- getWorld ;; ret (cachedAvailableModels w).

Definition findModelByName (modelName : jsstring) : M (option LanguageModelChat) :=
  w <- getWorld ;;
  ret (find (fun m => JS.eqb (name m) modelName) (cachedAvailableModels w)).

Definition getPreferredModel : M jsstring :=
  w <- getWorld ;; ret (get_preferredModel (configuration w) emptyString).

(** [configuration.update("preferredModel", modelName, Global)]: once the
    host has accepted the write, every later read returns the new value. *)
Definition updatePreferredModel (h : Host) (modelName : jsstring) : M unit :=
  await (configurationUpdate h modelName) ;;;
  w <- getWorld ;;
  setWorld
    {| cachedAvailableModels := cachedAvailableModels w;
       configuration :=
         {| get_filePatterns := get_filePatterns (configuration w);
            get_preferredModel := fun _ => modelName |};
       fs := fs w;
       outputChannel := outputChannel w;
       window := window w |}.

Definition setPreferredModel (h : Host) (modelName : jsstring) : M unit :=
  updatePreferredModel h modelName ;;;
  appendLine (LogPreferredUpdated modelName).

(** [vscode.window.showQuickPick(items, { title, placeHolder })] *)
Definition showQuickPick (h : Host) (items : list QuickPickItem)
    (title placeHolder : jsstring) : M (option QuickPickItem) :=
  windowCall (ShowQuickPick items title placeHolder) ;;;
  ret (quickPickReply h items).

(** [vscode.window.showWarningMessage(message, ...items)] *)
Definition showWarningMessage (h : Host) (message : jsstring)
    (items : list jsstring) : M (option jsstring) :=
  windowCall (ShowWarningMessage message items) ;;;
  ret (warningReply h message items).

Definition selectModel (h : Host) : M (option LanguageModelChat) :=
  w <- getWorld ;;
  if Nat.eqb (length (cachedAvailableModels w)) 0 then
    windowCall (ShowErrorMessage
      (lit "No language models available. Please ensure you have Copilot Chat enabled.")) ;;;
    ret None
  else
    selected <- showQuickPick h
      (map (fun m =>
              {| label := name m;
                 description := JS.or (family m) (lit "Copilot Model");
                 model := m |})
           (cachedAvailableModels w))
      (lit "Select a Language Model")
      (lit "Choose a model to boost your prompt") ;;
    match selected with
    | Some item =>
        windowCall (ShowInformationMessage (lit "Selected: " ++ name (model item))) ;;;
        setPreferredModel h (name (model item)) ;;;
        ret (Some (model item))
    | None =>
        appendLine LogSelectionCancelled ;;;
        ret None
    end.

(** *** File patterns *)

(** The class [[/\\]] of the regular expression in [fileName.split]. *)
Definition isSeparator (c : N) : bool := ((c =? 47) || (c =? 92))%N.

(** [fileName.split(/[/\\]/).pop() || fileName] *)
Definition baseNameOf (fileName : jsstring) : jsstring :=
  match pop (split isSeparator fileName) with
  | Some segment => JS.or segment fileName
  | None => fileName
  end.

(** [patterns.some(callback)]: stops at the first pattern for which the
    callback answers true; a throw of the callback ends the iteration. *)
Fixpoint some (callback : jsstring -> M bool) (patterns : list jsstring) : M bool :=
  match patterns with
  | [] => ret false
  | pattern :: rest =>
      result <- callback pattern ;;
      if result then ret true else some callback rest
  end.

Definition isBoostEnabledForFile (h : Host) (fileName : jsstring) : M bool :=
  w <- getWorld ;;
  match get_filePatterns (configuration w) [lit "*.prompt.md"] with
  | Undefined | Null =>
      appendLine LogNoPatterns ;;; ret true
  | Value patterns =>
      if Nat.eqb (length patterns) 0 then
        appendLine LogNoPatterns ;;; ret true
      else if includes patterns (lit "*") then
        appendLine LogWildcard ;;; ret true
      else
        let baseName := baseNameOf fileName in
        appendLine (LogFullPath fileName) ;;;
        appendLine (LogBasename baseName) ;;;
        appendLine (LogPatterns patterns) ;;;
        matches <- some (fun pattern =>
                           result <- await (minimatch h baseName pattern) ;;
                           appendLine (LogPattern pattern result) ;;;
                           ret result)
                        patterns ;;
        appendLine (LogFinal matches) ;;;
        ret matches
  end.

(** *** File I/O *)

Definition DEFAULT_BOOST_INSTRUCTIONS : jsstring :=
  lit "You are a professional prompt engineer specializing in crafting precise, effective prompts.
Your task is to enhance prompts by making them more specific, actionable, and effective.

**Formatting Requirements:**
- Use Markdown formatting in your response.
- Present requirements, constraints, and steps as bulleted or numbered lists.
- Separate context, instructions, and examples into clear paragraphs.
- Use headings if appropriate.
- Ensure the prompt is easy to read and visually organized.

**Instructions:**
- Improve the user prompt wrapped in `<original_prompt>` tags.
- Make instructions explicit and unambiguous.
- Add relevant context and constraints.
- Remove redundant information.
- Maintain the core intent.
- Ensure the prompt is self-contained.
- Use professional language.
- Add references to documentation or examples if applicable.

**For invalid or unclear prompts:**
- Respond with clear, professional guidance.
- Keep responses concise and actionable.
- Maintain a helpful, constructive tone.
- Focus on what the user should provide.
- Use a standard template for consistency.

**IMPORTANT:**
Your response must ONLY contain the enhanced prompt text, formatted as described.
Do not include any explanations, metadata, or wrapper tags.".

Definition getInstructionFilePath (h : Host) (context : ExtensionContext) : jsstring :=
  path_join h (globalStoragePath context) (lit "boost.prompt.md").

(** [fs.existsSync(path)] *)
Definition existsSync (path : jsstring) : M bool :=
  w <- getWorld ;;
  ret (match fs w path with Absent => false | _ => true end).

(** [fs.readFileSync(path, "utf-8")] *)
Definition readFileSync (path : jsstring) : M jsstring :=
  w <- getWorld ;;
  match fs w path with
  | File content => ret content
  | Unreadable err => throw err
  | Absent => throw (lit "ENOENT: no such file or directory")
  end.

Definition readInstructionFile (h : Host) (context : ExtensionContext) : M jsstring :=
  block <-
    tryCatch
      (let filePath := getInstructionFilePath h context in
       present <- existsSync filePath ;;
       if present then
         content <- readFileSync filePath ;; ret (Return content)
       else ret (Next tt))
      (fun err => appendLine (LogErrorReading err) ;;; ret (Next tt)) ;;
  match block with
  | Return content => ret content
  | Next _ => ret DEFAULT_BOOST_INSTRUCTIONS
  end.

(** *** Model selection for a boost *)

Definition getSelectedLanguageModel (h : Host) : M (option LanguageModelChat) :=
  availableModels <- getAvailableModels ;;
  if Nat.eqb (length availableModels) 0 then
    windowCall (ShowErrorMessage (lit "No language models available. Enable Copilot Chat.")) ;;;
    appendLine LogNoModelsAvailable ;;;
    ret None
  else
    preferredName <- getPreferredModel ;;
    if truthy preferredName then
      preferred <- findModelByName preferredName ;;
      match preferred with
      | Some preferred =>
          appendLine (LogUsingPreferred (name preferred)) ;;;
          ret (Some preferred)
      | None =>
          action <- showWarningMessage h
            (lit "Preferred model " ++ [34%N] ++ preferredName ++ [34%N]
               ++ lit " not found. Select new?")
            [lit "Select Model"] ;;
          match action with
          | Some chosen =>
              if JS.eqb chosen (lit "Select Model") then selectModel h
              else appendLine LogSelectionCancelled ;;; ret None
          | None => appendLine LogSelectionCancelled ;;; ret None
          end
      end
    else selectModel h.

End Utils.
Import Utils.

(* ================================================================== *)
(** ** boostPrompt.ts *)

Module BoostPrompt.

Inductive Status : Type := success | failed | terminated.

(** [a === b] on the status tags. *)
Definition Status_eqb (a b : Status) : bool :=
  match a, b with
  | success, success | failed, failed | terminated, terminated => true
  | _, _ => false
  end.

Record BoostPromptResult : Type := { result : jsstring; status : Status }.

(** The one message of a request: the instructions, then the prompt in its
    wrapper. *)
Definition requestMessages (instructions promptText : jsstring)
    : list LanguageModelChatMessage :=
  [User (instructions ++ [10; 10]%N ++ lit "<original_prompt>" ++ [10%N]
           ++ promptText ++ [10%N] ++ lit "</original_prompt>")].

(** [for await (const chunk of stream) { enhanced += chunk; }]: what
    [enhanced] holds once the stream has completed, or what the stream
    threw. *)
Fixpoint forAwait (stream : AsyncIterable) (enhanced : jsstring) : Completion jsstring :=
  match stream with
  | Done => Normal enhanced
  | Yield chunk rest => forAwait rest (enhanced ++ chunk)
  | Fail err => Throw err
  end.

Definition boostPrompt (h : Host) (promptText : jsstring)
    (model : LanguageModelChat) (context : ExtensionContext) : M BoostPromptResult :=
  tryCatch
    (instructions <- readInstructionFile h context ;;
     let messages := requestMessages instructions promptText in
     appendLine (LogBoosting (length promptText)) ;;;
     sent <-
       tryCatch
         (response <- await (sendRequest model messages) ;; ret (Next response))
         (fun err =>
            appendLine (LogRequestFailed err) ;;;
            ret (Return {| result := promptText; status := failed |})) ;;
     match sent with
     | Return early => ret early
     | Next None =>
         appendLine LogNoResponse ;;;
         ret {| result := promptText; status := failed |}
     | Next (Some response) =>
         tryCatch
           (enhanced <- await (forAwait (text response) emptyString) ;;
            if negb (truthy (trim enhanced)) then
              appendLine LogEmptyResponse ;;;
              ret {| result := promptText; status := failed |}
            else
              appendLine (LogSuccess (length promptText) (length enhanced)) ;;;
              ret {| result := enhanced; status := success |})
           (fun err =>
              appendLine (LogStreamFailed err) ;;;
              ret {| result := promptText; status := failed |})
     end)
    (fun err =>
       appendLine (LogUnexpected err) ;;;
       ret {| result := promptText; status := failed |}).

End BoostPrompt.
Import BoostPrompt.

(* ================================================================== *)
(** ** Concrete surroundings, for the examples *)

Module Sample.

(** Modelled from the spec: [minimatch], the glob library [utils.ts]
    imports, whose code is not part of the sources.  The spec describes
    shell-glob matching where [*] stands for any run of characters and [?]
    for a single character; every other character stands for itself.
    Bracket classes are left out.  [glob pattern name] goes through the
    pattern, and for a [*] through the name. *)
Fixpoint glob (pattern : jsstring) : jsstring -> bool :=
  fix through (name : jsstring) : bool :=
    match pattern with
    | [] => negb (truthy name)
    | c :: pattern' =>
        if (c =? 42)%N then
          glob pattern' name
          || match name with [] => false | _ :: name' => through name' end
        else
          match name with
          | [] => false
          | d :: name' => ((c =? 63)%N || (c =? d)%N) && glob pattern' name'
          end
    end.

(** A matcher that refuses patterns longer than [limit] code units by
    throwing, and otherwise answers as [matcher] does.  The [minimatch]
    library bounds its patterns this way, at 64 * 1024 characters, with a
    TypeError. *)
Definition guarded (limit : N) (matcher : jsstring -> jsstring -> bool)
    (name pattern : jsstring) : Completion bool :=
  if (limit <? N.of_nat (length pattern))%N then Throw (lit "pattern is too long")
  else Normal (matcher pattern name).

(** A host that finds no model, a user who dismisses every dialog. *)
Definition quiet (mm : jsstring -> jsstring -> Completion bool) : Host :=
  {| selectChatModels := Normal [];
     quickPickReply := fun _ => None;
     warningReply := fun _ _ => None;
     configurationUpdate := fun _ => Normal tt;
     path_join := fun dir file => dir ++ [47%N] ++ file;
     minimatch := mm |}.

Definition host : Host := quiet (fun name pattern => Normal (glob pattern name)).

Definition storage : ExtensionContext := {| globalStoragePath := lit "/storage" |}.

(** A world with the given cache, patterns and instruction file. *)
Definition world (models : list LanguageModelChat)
    (patterns : Nullable (list jsstring)) (preferred : jsstring)
    (instructionFile : FileNode) : World :=
  {| cachedAvailableModels := models;
     configuration :=
       {| get_filePatterns := fun _ => patterns;
          get_preferredModel := fun _ => preferred |};
     fs := fun path =>
             if JS.eqb path (lit "/storage/boost.prompt.md") then instructionFile
             else Absent;
     outputChannel := [];
     window := [] |}.

(** An endpoint that answers every request the same way. *)
Definition endpoint (modelId modelName : jsstring)
    (answer : Completion (option LanguageModelChatResponse)) : LanguageModelChat :=
  {| id := modelId; name := modelName; family := lit "gpt";
     sendRequest := fun _ => answer |}.

Definition streaming (chunks : list jsstring) : Completion (option LanguageModelChatResponse) :=
  Normal (Some {| text := fragments chunks |}).

End Sample.
Import Sample.

Unset Implicit Arguments.

(* ================================================================== *)
(** ** Vocabulary of the statements *)

(** The instruction text a read finds in world [w]. *)
Definition instructionsAt (h : Host) (context : ExtensionContext) (w : World) : jsstring :=
  match fs w (getInstructionFilePath h context) with
  | File content => content
  | Absent | Unreadable _ => DEFAULT_BOOST_INSTRUCTIONS
  end.

(** The patterns [isBoostEnabledForFile] works with in world [w]. *)
Definition patternsAt (w : World) : Nullable (list jsstring) :=
  get_filePatterns (configuration w) [lit "*.prompt.md"].

(** Is the call the interactive chooser? *)
Definition isChooser (c : WindowCall) : bool :=
  match c with ShowQuickPick _ _ _ => true | _ => false end.

(** The result of a boost, read off the answer of the endpoint to the one
    request. *)
Definition classify (promptText : jsstring)
    (answer : Completion (option LanguageModelChatResponse)) : BoostPromptResult :=
  match answer with
  | Throw _ | Normal None => {| result := promptText; status := failed |}
  | Normal (Some response) =>
      match forAwait (text response) emptyString with
      | Throw _ => {| result := promptText; status := failed |}
      | Normal enhanced =>
          if truthy (trim enhanced) then {| result := enhanced; status := success |}
          else {| result := promptText; status := failed |}
      end
  end.

(* ================================================================== *)
(** ** utils.ts: the message about the configured patterns *)

Module UtilsMessages.

(** [arr.join(sep)] on an array of strings. *)
Fixpoint join (arr : list jsstring) (sep : jsstring) : jsstring :=
  match arr with
  | [] => emptyString
  | [x] => x
  | x :: rest => x ++ sep ++ join rest sep
  end.

(** What reading a property of [undefined] or [null] throws. *)
Definition cannotRead (value property : string) : JsError :=
  lit "TypeError: Cannot read properties of " ++ lit value
    ++ lit " (reading '" ++ lit property ++ lit "')".

(** The lookup result is cast to [string[]] and used without a test, so
    [patterns.length] throws on [undefined] and on [null]. *)
Definition getEnabledPatternsMessage : M jsstring :=
  w <- getWorld ;;
  match get_filePatterns (configuration w) [lit "*.prompt.md"] with
  | Undefined => throw (cannotRead "undefined" "length")
  | Null => throw (cannotRead "null" "length")
  | Value patterns =>
      if Nat.ltb 0 (length patterns) then ret (join patterns (lit ", "))
      else ret (lit "(empty - enables for all files)")
  end.

End UtilsMessages.
Import UtilsMessages.

(* ================================================================== *)
(** ** boostPromptTool.ts *)

Module BoostPromptTool.

(** [vscode.LanguageModelTextPart] *)
Record LanguageModelTextPart : Type := { value : jsstring }.

(** [vscode.LanguageModelToolResult] *)
Record LanguageModelToolResult : Type := { content : list LanguageModelTextPart }.

(** [BoostPromptTool.invoke(options, _token)], with [options.input.promptText]
    as [promptText] and the context the tool was built with.  The warning
    is shown without items and its answer is not awaited. *)
Definition invoke (h : Host) (context : ExtensionContext) (promptText : jsstring)
    : M (option LanguageModelToolResult) :=
  selected <- getSelectedLanguageModel h ;;
  match selected with
  | None =>
      windowCall (ShowWarningMessage (lit "No model selected, boost cancelled.") []) ;;;
      ret None
  | Some chosen =>
      boosted <- boostPrompt h promptText chosen context ;;
      ret (Some {| content := [ {| value := result boosted |} ] |})
  end.

End BoostPromptTool.
Import BoostPromptTool.

(* ================================================================== *)
(** ** A session: the world, the output lines of the other functions, the
    disk as it answers writes *)

Module Later.

(** Lines of the output channel written by the functions below, one
    constructor for one template of the sources. *)
Inductive MoreLine : Type :=
| LogCreatedInstructionFile (filePath : jsstring)
    (* Created instruction file at: ${filePath} *)
| LogErrorEnsuring (err : JsError)   (* Error ensuring instruction file: ... *)
| LogConfiguredPatterns (joined : jsstring)
    (* Configured file patterns: [${patterns.join(", ")}] *)
| LogRuleAfterNewline                (* a line break, then 60 times "=" *)
| LogContextUpdate (fileName : jsstring)  (* Context Update: ${fileName} *)
| LogRule                            (* 60 times "=" *)
| LogActiveTab (tabLabel : Nullable jsstring) (viewType : option jsstring)
    (* Active tab detected: label=${tabLabel} viewType=${viewType} *)
| LogErrorInspecting (err : JsError).
    (* Error inspecting active tab for preview: ... *)

(** The state of a session: the world, and the lines above.  The output
    channel is one: a line of
    [laterLines] stands in it behind as many lines of [outputChannel] as the
    number it is paired with says. *)
Record Session : Type := {
  worldOf : World;
  laterLines : list (nat * MoreLine)
}.

(** How the disk answers writes.  [ancestors dir] are the directories
    above [dir]; a refusal is the error the call throws, and may depend on
    what the file system holds. *)
Record Disk : Type := {
  ancestors : jsstring -> list jsstring;
  mkdirRefusal : (jsstring -> FileNode) -> jsstring -> option JsError;
  writeRefusal : (jsstring -> FileNode) -> jsstring -> option JsError
}.

Definition Ses (A : Type) : Type := Session -> Completion A * Session.

Definition retS {A : Type} (a : A) : Ses A := fun s => (Normal a, s).

Definition throwS {A : Type} (e : JsError) : Ses A := fun s => (Throw e, s).

Definition bindS {A B : Type} (m : Ses A) (k : A -> Ses B) : Ses B :=
  fun s =>
    match m s with
    | (Normal a, s') => k a s'
    | (Throw e, s') => (Throw e, s')
    end.

Definition tryCatchS {A : Type} (body : Ses A) (handler : JsError -> Ses A) : Ses A :=
  fun s =>
    match body s with
    | (Normal a, s') => (Normal a, s')
    | (Throw e, s') => handler e s'
    end.

(** A function of the earlier modules, run in the session. *)
Definition lift {A : Type} (m : M A) : Ses A :=
  fun s =>
    match m (worldOf s) with
    | (c, w') => (c, {| worldOf := w'; laterLines := laterLines s |})
    end.

(** [boostPromptOutputChannel.appendLine(line)] for the lines above. *)
Definition appendMore (line : MoreLine) : Ses unit :=
  fun s =>
    (Normal tt,
     {| worldOf := worldOf s;
        laterLines := laterLines s ++ [(length (outputChannel (worldOf s)), line)] |}).

(** Replaces the file system of the world. *)
Definition setFs (fs' : jsstring -> FileNode) : Ses unit :=
  fun s =>
    (Normal tt,
     {| worldOf :=
          {| cachedAvailableModels := cachedAvailableModels (worldOf s);
             configuration := configuration (worldOf s);
             fs := fs';
             outputChannel := outputChannel (worldOf s);
             window := window (worldOf s) |};
        laterLines := laterLines s |}).

Definition outcomeS {A : Type} (m : Ses A) (s : Session) : Completion A := fst (m s).
Definition afterS {A : Type} (m : Ses A) (s : Session) : Session := snd (m s).

End Later.
Import Later.

Declare Scope ses_scope.
Delimit Scope ses_scope with ses.
Notation "x <- m ;; k" := (bindS m (fun x => k))
  (at level 61, m at next level, right associativity) : ses_scope.
Notation "m ;;; k" := (bindS m (fun _ => k))
  (at level 61, right associativity) : ses_scope.

(* ================================================================== *)
(** ** utils.ts: the instruction file on disk, the log of the patterns *)

Module UtilsFiles.

Local Open Scope ses_scope.

(** An entry that is a directory: it exists, and reading it as a file
    throws. *)
Definition directory : FileNode :=
  Unreadable (lit "EISDIR: illegal operation on a directory, read").

(** [fs.mkdirSync(dir, { recursive: true })]: unless the disk refuses, [dir]
    and the directories above it exist afterwards; entries that were there
    stay. *)
Definition mkdirSync (d : Disk) (dir : jsstring) : Ses unit :=
  s <- (fun s => (Normal s, s)) ;;
  match mkdirRefusal d (fs (worldOf s)) dir with
  | Some err => throwS err
  | None =>
      setFs (fun path =>
               if existsb (JS.eqb path) (dir :: ancestors d dir) then
                 match fs (worldOf s) path with
                 | Absent => directory
                 | node => node
                 end
               else fs (worldOf s) path)
  end.

(** [fs.writeFileSync(path, content, "utf-8")] *)
Definition writeFileSync (d : Disk) (path content : jsstring) : Ses unit :=
  s <- (fun s => (Normal s, s)) ;;
  match writeRefusal d (fs (worldOf s)) path with
  | Some err => throwS err
  | None =>
      setFs (fun path' => if JS.eqb path' path then File content
                          else fs (worldOf s) path')
  end.

Definition ensureInstructionFile (d : Disk) (h : Host) (context : ExtensionContext)
    : Ses unit :=
  tryCatchS
    (let filePath := getInstructionFilePath h context in
     storagePresent <- lift (existsSync (globalStoragePath context)) ;;
     (if negb storagePresent then mkdirSync d (globalStoragePath context)
      else retS tt) ;;;
     filePresent <- lift (existsSync filePath) ;;
     if negb filePresent then
       writeFileSync d filePath DEFAULT_BOOST_INSTRUCTIONS ;;;
       appendMore (LogCreatedInstructionFile filePath)
     else retS tt)
    (fun err => appendMore (LogErrorEnsuring err)).

(** The lookup result is cast to [string[]], so [patterns.join] throws on
    [undefined] and on [null]. *)
Definition logPatterns : Ses unit :=
  s <- (fun s => (Normal s, s)) ;;
  match get_filePatterns (configuration (worldOf s)) [lit "*.prompt.md"] with
  | Undefined => throwS (cannotRead "undefined" "join")
  | Null => throwS (cannotRead "null" "join")
  | Value patterns => appendMore (LogConfiguredPatterns (join patterns (lit ", ")))
  end.

End UtilsFiles.
Import UtilsFiles.

(* ================================================================== *)
(** ** context.ts *)

Module Context.

Local Open Scope ses_scope.

(** [haystack.startsWith(needle)] *)
Fixpoint startsWith (haystack needle : jsstring) : bool :=
  match needle, haystack with
  | [], _ => true
  | _ :: _, [] => false
  | n :: needle', c :: haystack' => N.eqb c n && startsWith haystack' needle'
  end.

(** [haystack.includes(needle)] on strings. *)
Fixpoint stringIncludes (haystack needle : jsstring) : bool :=
  startsWith haystack needle
  || match haystack with
     | [] => false
     | _ :: haystack' => stringIncludes haystack' needle
     end.

(** [editor.document.fileName] of a text editor. *)
Record TextEditor : Type := { fileName : jsstring }.

(** The active tab, as far as the function looks at it: its label and the
    [viewType] of its input, [undefined] when the input has none. *)
Record Tab : Type := {
  tabLabel : Nullable jsstring;
  viewType : option jsstring
}.

(** [vscode.window.tabGroups.activeTabGroup?.activeTab]: the read may
    throw, and there may be no active tab. *)
Definition TabGroups : Type := Completion (option Tab).

(** The object the function returns. *)
Record Determination : Type := {
  enabled : bool;
  source : jsstring;
  name_ : option jsstring
}.

(** [tabLabel ?? ""] *)
Definition labelOrEmpty (l : Nullable jsstring) : jsstring :=
  match l with
  | Value v => v
  | Undefined | Null => emptyString
  end.

(** The [try] block either returns from the function or falls through. *)
Definition determineBoostEnabledForActive (h : Host) (tabs : TabGroups)
    (editor : option TextEditor) : Ses Determination :=
  match editor with
  | Some editor =>
      appendMore LogRuleAfterNewline ;;;
      appendMore (LogContextUpdate (fileName editor)) ;;;
      appendMore LogRule ;;;
      isEnabled <- lift (isBoostEnabledForFile h (fileName editor)) ;;
      retS {| enabled := isEnabled; source := lit "editor";
              name_ := Some (fileName editor) |}
  | None =>
      block <-
        tryCatchS
          (activeTab <- (fun s => (tabs, s)) ;;
           match activeTab with
           | Some tab =>
               appendMore (LogActiveTab (tabLabel tab) (viewType tab)) ;;;
               match viewType tab with
               | Some vt =>
                   if truthy vt && stringIncludes vt (lit "markdown.preview") then
                     let nameToCheck := labelOrEmpty (tabLabel tab) in
                     isEnabled <- lift (isBoostEnabledForFile h nameToCheck) ;;
                     retS (Return {| enabled := isEnabled; source := lit "preview";
                                     name_ := Some nameToCheck |})
                   else retS (Next tt)
               | None => retS (Next tt)
               end
           | None => retS (Next tt)
           end)
          (fun err => appendMore (LogErrorInspecting err) ;;; retS (Next tt)) ;;
      match block with
      | Return determination => retS determination
      | Next _ => retS {| enabled := false; source := lit "none"; name_ := None |}
      end
  end.

End Context.
Import Context.

(* ================================================================== *)
(** ** More surroundings and vocabulary *)

(** A user who picks the first item of a quick pick and agrees to select
    a new model when asked; every configuration write is accepted. *)
Definition decided (mm : jsstring -> jsstring -> Completion bool) : Host :=
  {| selectChatModels := Normal [];
     quickPickReply := fun items => hd_error items;
     warningReply := fun _ items => hd_error items;
     configurationUpdate := fun _ => Normal tt;
     path_join := fun dir file => dir ++ [47%N] ++ file;
     minimatch := mm |}.

(** The same user with a configuration that refuses every write. *)
Definition readOnly (err : JsError) : Host :=
  {| selectChatModels := Normal [];
     quickPickReply := fun items => hd_error items;
     warningReply := fun _ items => hd_error items;
     configurationUpdate := fun _ => Throw err;
     path_join := fun dir file => dir ++ [47%N] ++ file;
     minimatch := fun name pattern => Normal (glob pattern name) |}.

(** A host whose discovery call answers [found]. *)
Definition discovering (found : Completion (list LanguageModelChat)) : Host :=
  {| selectChatModels := found;
     quickPickReply := fun items => hd_error items;
     warningReply := fun _ items => hd_error items;
     configurationUpdate := fun _ => Normal tt;
     path_join := fun dir file => dir ++ [47%N] ++ file;
     minimatch := fun name pattern => Normal (glob pattern name) |}.

(** The user picks among the items the quick pick offers. *)
Definition picksOffered (h : Host) : Prop :=
  forall items item, quickPickReply h items = Some item -> In item items.

(** A stream that delivers [chunks] and then throws [err]. *)
Definition failingAfter (chunks : list jsstring) (err : JsError) : AsyncIterable :=
  fold_right Yield (Fail err) chunks.

(** No code unit of the string is a path separator. *)
Definition separatorFree (s : jsstring) : Prop :=
  forall c, In c s -> isSeparator c = false.

(** The two worlds differ at most in their output channel. *)
Definition onlyLogged (w w' : World) : Prop :=
  cachedAvailableModels w' = cachedAvailableModels w
  /\ configuration w' = configuration w
  /\ fs w' = fs w
  /\ window w' = window w.

(** The items [selectModel] offers in world [w]: one for each cached
    model, in the order of the cache. *)
Definition offered (w : World) : list QuickPickItem :=
  map (fun m =>
         {| label := name m;
            description := JS.or (family m) (lit "Copilot Model");
            model := m |})
      (cachedAvailableModels w).

(** The stored preference, as [getPreferredModel] reads it. *)
Definition preferenceAt (w : World) : jsstring :=
  get_preferredModel (configuration w) emptyString.

(** The question asked when the preferred model is not in the cache. *)
Definition notFoundQuestion (preferredName : jsstring) : jsstring :=
  lit "Preferred model " ++ [34%N] ++ preferredName ++ [34%N]
    ++ lit " not found. Select new?".

(** Is there an entry at the path? *)
Definition present (f : jsstring -> FileNode) (path : jsstring) : bool :=
  match f path with Absent => false | _ => true end.

(** The file system once [dir] and the directories above it are made. *)
Definition withDirectories (d : Disk) (dir : jsstring) (f : jsstring -> FileNode)
    : jsstring -> FileNode :=
  fun path =>
    if existsb (JS.eqb path) (dir :: ancestors d dir) then
      match f path with
      | Absent => directory
      | node => node
      end
    else f path.

(** The file system once [content] is written at [path]. *)
Definition withFile (path content : jsstring) (f : jsstring -> FileNode)
    : jsstring -> FileNode :=
  fun path' => if JS.eqb path' path then File content else f path'.

(** The file system [ensureInstructionFile] leaves, step by step: the
    directory is made when it is missing and the disk allows it; then the
    default is written when the file is missing and the disk allows it. *)
Definition ensuredFs (d : Disk) (dir filePath : jsstring)
    (f : jsstring -> FileNode) : jsstring -> FileNode :=
  match (if present f dir then Some f
         else match mkdirRefusal d f dir with
              | Some _ => None
              | None => Some (withDirectories d dir f)
              end) with
  | None => f
  | Some f1 =>
      if present f1 filePath then f1
      else match writeRefusal d f1 filePath with
           | Some _ => f1
           | None => withFile filePath DEFAULT_BOOST_INSTRUCTIONS f1
           end
  end.

(** A disk that refuses nothing; the directories above a path are not
    tracked. *)
Definition obliging : Disk :=
  {| ancestors := fun _ => [];
     mkdirRefusal := fun _ _ => None;
     writeRefusal := fun _ _ => None |}.

(** A session that starts in world [w]. *)
Definition sessionOf (w : World) : Session :=
  {| worldOf := w; laterLines := [] |}.

(* ================================================================== *)
(** ** Strings *)

Lemma eqb_refl (s : jsstring) : JS.eqb s s = true.
Proof.
  induction s as [|c s IH]; simpl; [reflexivity|].
  now rewrite N.eqb_refl, IH.
Qed.

Lemma eqb_eq (a b : jsstring) : JS.eqb a b = true <-> a = b.
Proof.
  split; [|intros ->; apply eqb_refl].
  revert b; induction a as [|x a IH]; intros [|y b]; simpl; try discriminate; auto.
  intros H. apply andb_true_iff in H as [Hx Hab].
  apply N.eqb_eq in Hx. f_equal; auto.
Qed.

Lemma includes_In (arr : list jsstring) (x : jsstring) :
  includes arr x = true <-> In x arr.
Proof.
  unfold includes. rewrite existsb_exists. split.
  - intros (y & Hy & E). apply eqb_eq in E. now subst.
  - intros H. exists x. split; [assumption | apply eqb_refl].
Qed.

Lemma truthy_nonempty (s : jsstring) : truthy s = true <-> s <> [].
Proof. destruct s; simpl; split; congruence. Qed.

(** *** Splitting a path *)

Lemma split_from_nonempty isSep s cur : split_from isSep s cur <> [].
Proof.
  revert cur; induction s as [|c s IH]; intros cur; simpl.
  - discriminate.
  - destruct (isSep c); [discriminate | apply IH].
Qed.

Lemma pop_cons {A : Type} (x : A) (l : list A) : l <> [] -> pop (x :: l) = pop l.
Proof. destruct l; [congruence | reflexivity]. Qed.

(** Everything up to a separator is irrelevant for the last segment. *)
Lemma pop_split_after_separator isSep x c y cur :
  isSep c = true ->
  pop (split_from isSep (x ++ c :: y) cur) = pop (split_from isSep y []).
Proof.
  intros Hc. revert cur.
  induction x as [|d x IH]; intros cur; simpl.
  - rewrite Hc. apply pop_cons, split_from_nonempty.
  - destruct (isSep d).
    + rewrite pop_cons by apply split_from_nonempty. apply IH.
    + apply IH.
Qed.

(** A string that ends in something else than a separator has a last
    segment that is not empty. *)
Lemma pop_split_ends_in_name isSep init c cur :
  isSep c = false ->
  exists segment,
    pop (split_from isSep (init ++ [c]) cur) = Some segment /\ truthy segment = true.
Proof.
  intros Hc. revert cur.
  induction init as [|d init IH]; intros cur; simpl.
  - rewrite Hc. simpl. exists (rev cur ++ [c]). split; [reflexivity|].
    destruct (rev cur); reflexivity.
  - destruct (isSep d).
    + rewrite pop_cons by apply split_from_nonempty. apply IH.
    + apply IH.
Qed.

Lemma baseNameOf_after_separator dir sep init c :
  isSeparator sep = true ->
  isSeparator c = false ->
  baseNameOf (dir ++ sep :: init ++ [c]) = baseNameOf (init ++ [c]).
Proof.
  intros Hsep Hc. unfold baseNameOf, split.
  rewrite (pop_split_after_separator isSeparator dir sep (init ++ [c]) [] Hsep).
  destruct (pop_split_ends_in_name isSeparator init c [] Hc) as (segment & -> & Hseg).
  unfold JS.or. now rewrite Hseg.
Qed.

Lemma baseNameOf_trailing_separator dir sep :
  isSeparator sep = true ->
  baseNameOf (dir ++ [sep]) = dir ++ [sep].
Proof.
  intros Hsep. unfold baseNameOf, split.
  rewrite (pop_split_after_separator isSeparator dir sep [] [] Hsep).
  reflexivity.
Qed.

(* ================================================================== *)
(** ** Running the monad *)

Ltac run :=
  unfold outcome, after, tryCatch, bind, ret, throw, await, appendLine,
    windowCall, getWorld, setWorld; cbn [fst snd].

(** The iteration over the configured patterns, when the matcher answers
    for each of them: the result says whether one of them matched, and
    nothing is thrown. *)
Lemma some_minimatch_answers (h : Host) (baseName : jsstring)
    (patterns : list jsstring) (w : World) :
  (forall p, In p patterns -> exists b, minimatch h baseName p = Normal b) ->
  exists matches,
    outcome (some (fun pattern =>
                     result <- await (minimatch h baseName pattern) ;;
                     appendLine (LogPattern pattern result) ;;;
                     ret result) patterns) w = Normal matches
    /\ (matches = true <->
        exists p, In p patterns /\ minimatch h baseName p = Normal true).
Proof.
  revert w. induction patterns as [|p rest IH]; intros w Hall.
  - exists false. split; [reflexivity|].
    split; [discriminate | intros (p & [] & _)].
  - destruct (Hall p (or_introl eq_refl)) as [b Hb].
    destruct b.
    + exists true. split.
      * simpl. run. rewrite Hb. reflexivity.
      * split; [|reflexivity]. intros _. exists p. split; [left; reflexivity | assumption].
    + match goal with
      | |- context [outcome (some ?f (p :: rest)) w] =>
          destruct (IH (after (appendLine (LogPattern p false)) w)
                      (fun q Hq => Hall q (or_intror Hq))) as (m & Hrun & Hm)
      end.
      exists m. split.
      * simpl. revert Hrun. run. rewrite Hb. exact (fun H => H).
      * rewrite Hm. split.
        -- intros (q & Hq & Hmatch). exists q. split; [right|]; assumption.
        -- intros (q & [-> | Hq] & Hmatch); [congruence|].
           exists q. split; assumption.
Qed.

(** The result of the iteration does not depend on the log. *)
Lemma some_outcome_same_log (h : Host) (baseName : jsstring)
    (patterns : list jsstring) (w w' : World) :
  outcome (some (fun pattern =>
                   result <- await (minimatch h baseName pattern) ;;
                   appendLine (LogPattern pattern result) ;;;
                   ret result) patterns) w
  = outcome (some (fun pattern =>
                   result <- await (minimatch h baseName pattern) ;;
                   appendLine (LogPattern pattern result) ;;;
                   ret result) patterns) w'.
Proof.
  revert w w'. induction patterns as [|p rest IH]; intros w w'; [reflexivity|].
  simpl. specialize (IH (after (appendLine (LogPattern p false)) w)
                        (after (appendLine (LogPattern p false)) w')).
  revert IH. run.
  destruct (minimatch h baseName p) as [[|]|e]; cbn; auto.
Qed.

(* ================================================================== *)
(** ** Model registry *)

Lemma notAuto_spec (m : LanguageModelChat) : notAuto m = true <-> id m <> lit "auto".
Proof.
  unfold notAuto. rewrite negb_true_iff.
  split.
  - intros H E. apply eqb_eq in E. congruence.
  - intros H. destruct (JS.eqb (id m) (lit "auto")) eqn:E; [|reflexivity].
    apply eqb_eq in E. contradiction.
Qed.

(** C4, as the code has it.  Discovery never throws.  When the host
    returns a list that is not empty, the cache becomes that list without
    the endpoints whose id is "auto"; when the host returns the empty list
    or its call throws, the cache keeps what it held. *)
Theorem initializeAndCacheModels_cache (h : Host) (w : World) :
  outcome (initializeAndCacheModels h) w = Normal tt
  /\ match selectChatModels h with
     | Normal (m :: ms) =>
         cachedAvailableModels (after (initializeAndCacheModels h) w)
         = filter notAuto (m :: ms)
         /\ Forall (fun m' => id m' <> lit "auto")
              (cachedAvailableModels (after (initializeAndCacheModels h) w))
     | Normal [] | Throw _ =>
         cachedAvailableModels (after (initializeAndCacheModels h) w)
         = cachedAvailableModels w
     end.
Proof.
  unfold initializeAndCacheModels, setCachedAvailableModels. run.
  destruct (selectChatModels h) as [[|m ms]|e];
    cbn [fst snd length Nat.eqb negb cachedAvailableModels];
    (split; [reflexivity|]); try reflexivity.
  split; [reflexivity|].
  apply Forall_forall. intros m' Hin.
  apply filter_In in Hin. now apply notAuto_spec.
Qed.

(** C4, as stated, fails on an empty host list: with "gpt-x" in the cache
    and a host that reports no endpoint, the cache still holds "gpt-x"
    after discovery and is not the (empty) filtered host list. *)
Lemma initializeAndCacheModels_empty_list_keeps_cache :
  let w := world [endpoint (lit "gpt-x") (lit "gpt-x") (streaming [])]
             (Value [lit "*.prompt.md"]) emptyString Absent in
  selectChatModels host = Normal []
  /\ map name (cachedAvailableModels (after (initializeAndCacheModels host) w))
     = [lit "gpt-x"]
  /\ cachedAvailableModels (after (initializeAndCacheModels host) w)
     <> filter notAuto [].
Proof.
  cbv zeta. split; [reflexivity|]. split; [reflexivity|].
  cbn. discriminate.
Qed.

(** C5.  With an empty cache the selection returns [undefined], whatever
    the stored preference and whatever the user would answer; the only
    call on the window is the error message, so the chooser is not shown. *)
Theorem getSelectedLanguageModel_empty_cache (h : Host) (w : World) :
  cachedAvailableModels w = [] ->
  outcome (getSelectedLanguageModel h) w = Normal None
  /\ window (after (getSelectedLanguageModel h) w)
     = window w ++ [ShowErrorMessage (lit "No language models available. Enable Copilot Chat.")]
  /\ filter isChooser (window (after (getSelectedLanguageModel h) w))
     = filter isChooser (window w).
Proof.
  intros Hcache.
  unfold getSelectedLanguageModel, getAvailableModels. run.
  rewrite Hcache. cbn [length Nat.eqb fst snd window].
  repeat split.
  rewrite filter_app. cbn. apply app_nil_r.
Qed.

Lemma getSelectedLanguageModel_empty_cache_witness :
  let w := world [] (Value [lit "*.prompt.md"]) (lit "gpt-x") Absent in
  outcome (getSelectedLanguageModel host) w = Normal None
  /\ window (after (getSelectedLanguageModel host) w)
     = window w ++ [ShowErrorMessage (lit "No language models available. Enable Copilot Chat.")]
  /\ filter isChooser (window (after (getSelectedLanguageModel host) w))
     = filter isChooser (window w).
Proof.
  cbv zeta. apply getSelectedLanguageModel_empty_cache. reflexivity.
Defined.

(* ================================================================== *)
(** ** File eligibility *)

(** C6.  When the patterns are [undefined], [null], the empty list, or a
    list that holds "*", every file name is eligible. *)
Theorem isBoostEnabledForFile_match_everything (h : Host) (w : World)
    (fileName : jsstring) :
  (patternsAt w = Undefined \/ patternsAt w = Null \/ patternsAt w = Value []
   \/ exists patterns, patternsAt w = Value patterns /\ In (lit "*") patterns) ->
  outcome (isBoostEnabledForFile h fileName) w = Normal true.
Proof.
  unfold patternsAt, isBoostEnabledForFile. run.
  intros [E | [E | [E | (patterns & E & Hin)]]]; rewrite E; try reflexivity.
  destruct (Nat.eqb (length patterns) 0); [reflexivity|].
  apply includes_In in Hin. rewrite Hin. reflexivity.
Qed.

Lemma isBoostEnabledForFile_match_everything_witness :
  outcome (isBoostEnabledForFile host (lit "src/notes.txt"))
    (world [] (Value [lit "*.md"; lit "*"]) emptyString Absent) = Normal true
  /\ outcome (isBoostEnabledForFile host (lit "src/notes.txt"))
    (world [] Null emptyString Absent) = Normal true.
Proof.
  split; apply isBoostEnabledForFile_match_everything.
  - right; right; right. exists [lit "*.md"; lit "*"].
    split; [reflexivity | right; left; reflexivity].
  - right; left; reflexivity.
Defined.

(** The result of an eligibility check, from the base name on. *)
Lemma isBoostEnabledForFile_by_baseName (h : Host) (w : World)
    (fileName fileName' : jsstring) :
  baseNameOf fileName = baseNameOf fileName' ->
  outcome (isBoostEnabledForFile h fileName) w
  = outcome (isBoostEnabledForFile h fileName') w.
Proof.
  intros Hbase. unfold isBoostEnabledForFile. run.
  destruct (get_filePatterns (configuration w) [lit "*.prompt.md"])
    as [| |patterns]; try reflexivity.
  destruct (Nat.eqb (length patterns) 0); [reflexivity|].
  destruct (includes patterns (lit "*")); [reflexivity|].
  rewrite <- Hbase.
  match goal with
  | |- fst (match some ?f patterns ?w1 with _ => _ end)
       = fst (match some ?f patterns ?w2 with _ => _ end) =>
      pose proof (some_outcome_same_log h (baseNameOf fileName) patterns w1 w2) as Hsame;
      unfold outcome in Hsame; revert Hsame; run;
      destruct (some f patterns w1) as [[m1|e1] w1'];
      destruct (some f patterns w2) as [[m2|e2] w2']; cbn; congruence
  end.
Qed.

(** C7, as the code has it.  For a file name that does not end in a
    separator, the directories in front of the last separator are
    irrelevant: the check answers as it does for the rest alone.  A file
    name that ends in a separator is matched as a whole. *)
Theorem isBoostEnabledForFile_final_segment (h : Host) (w : World)
    (dir : jsstring) (sep : N) (init : jsstring) (c : N) :
  isSeparator sep = true ->
  isSeparator c = false ->
  outcome (isBoostEnabledForFile h (dir ++ sep :: init ++ [c])) w
  = outcome (isBoostEnabledForFile h (init ++ [c])) w
  /\ baseNameOf (dir ++ [sep]) = dir ++ [sep].
Proof.
  intros Hsep Hc. split.
  - apply isBoostEnabledForFile_by_baseName.
    now apply baseNameOf_after_separator.
  - now apply baseNameOf_trailing_separator.
Qed.

Lemma isBoostEnabledForFile_final_segment_witness :
  let w := world [] (Value [lit "*.md"]) emptyString Absent in
  outcome (isBoostEnabledForFile host (lit "a/b/c.md")) w
  = outcome (isBoostEnabledForFile host (lit "c.md")) w
  /\ baseNameOf (lit "a/b/") = lit "a/b/".
Proof.
  cbv zeta.
  apply (isBoostEnabledForFile_final_segment host
           (world [] (Value [lit "*.md"]) emptyString Absent)
           (lit "a/b") 47%N (lit "c.m") 100%N); reflexivity.
Defined.

(** C7, as stated, fails for an empty final segment: "docs/" is matched as
    a whole and is eligible under the pattern "docs/", while its final
    segment, the empty name, is not. *)
Lemma isBoostEnabledForFile_empty_final_segment :
  let w := world [] (Value [lit "docs/"]) emptyString Absent in
  outcome (isBoostEnabledForFile host (lit "docs" ++ 47%N :: emptyString)) w = Normal true
  /\ outcome (isBoostEnabledForFile host emptyString) w = Normal false.
Proof. cbv zeta. split; reflexivity. Qed.

(** C8, as the code has it.  The check has no guard of its own around the
    matcher: it returns whenever the matcher answers for the configured
    patterns, and then a pattern the matcher rejects counts as no match
    for that pattern only, so the file is eligible as soon as another
    pattern matches. *)
Theorem isBoostEnabledForFile_returns_when_matcher_answers (h : Host) (w : World)
    (fileName : jsstring) :
  (forall patterns p, patternsAt w = Value patterns -> In p patterns ->
     exists b, minimatch h (baseNameOf fileName) p = Normal b) ->
  exists enabled,
    outcome (isBoostEnabledForFile h fileName) w = Normal enabled
    /\ (enabled = true <->
        match patternsAt w with
        | Undefined | Null => True
        | Value patterns =>
            patterns = [] \/ In (lit "*") patterns
            \/ exists p, In p patterns
                 /\ minimatch h (baseNameOf fileName) p = Normal true
        end).
Proof.
  unfold patternsAt, isBoostEnabledForFile. run.
  destruct (get_filePatterns (configuration w) [lit "*.prompt.md"])
    as [| |patterns]; intros Hanswers.
  - exists true. cbn. tauto.
  - exists true. cbn. tauto.
  - destruct (Nat.eqb (length patterns) 0) eqn:Hlen.
    { exists true. cbn. apply Nat.eqb_eq, length_zero_iff_nil in Hlen. tauto. }
    destruct (includes patterns (lit "*")) eqn:Hstar.
    { exists true. cbn. apply includes_In in Hstar. tauto. }
    match goal with
    | |- context [some ?f patterns ?w1] =>
        destruct (some_minimatch_answers h (baseNameOf fileName) patterns w1
                    (fun p Hp => Hanswers patterns p eq_refl Hp))
          as (matches & Hrun & Hiff);
        revert Hrun; run;
        destruct (some f patterns w1) as [[m|e] w1'];
        cbn [fst snd]; intros Hrun; [|discriminate]
    end.
    injection Hrun as ->.
    exists matches. split; [reflexivity|].
    rewrite Hiff. split; [tauto|].
    intros [-> | [Hin | Hex]]; [discriminate | | exact Hex].
    apply includes_In in Hin. congruence.
Qed.

Lemma isBoostEnabledForFile_returns_when_matcher_answers_witness :
  let w := world [] (Value [lit "[broken"; lit "*.prompt.md"]) emptyString Absent in
  exists enabled,
    outcome (isBoostEnabledForFile host (lit "notes.prompt.md")) w = Normal enabled
    /\ (enabled = true <->
        match patternsAt w with
        | Undefined | Null => True
        | Value patterns =>
            patterns = [] \/ In (lit "*") patterns
            \/ exists p, In p patterns
                 /\ minimatch host (baseNameOf (lit "notes.prompt.md")) p = Normal true
        end).
Proof.
  cbv zeta. apply isBoostEnabledForFile_returns_when_matcher_answers.
  intros patterns p _ _. eexists. reflexivity.
Defined.

(** The iteration ends with the throw of the matcher on the first pattern
    it throws on, when the patterns before it were rejected. *)
Lemma some_minimatch_throws (h : Host) (baseName : jsstring)
    (before : list jsstring) (p : jsstring) (rest : list jsstring)
    (e : JsError) (w : World) :
  Forall (fun q => minimatch h baseName q = Normal false) before ->
  minimatch h baseName p = Throw e ->
  outcome (some (fun pattern =>
                   result <- await (minimatch h baseName pattern) ;;
                   appendLine (LogPattern pattern result) ;;;
                   ret result) (before ++ p :: rest)) w = Throw e.
Proof.
  intros Hbefore Hp. revert w.
  induction Hbefore as [|q before Hq _ IH]; intros w; simpl.
  - run. rewrite Hp. reflexivity.
  - specialize (IH (after (appendLine (LogPattern q false)) w)).
    revert IH. run. rewrite Hq. exact (fun H => H).
Qed.

(** The check lets a throw of the matcher through: when the matcher
    throws on a configured pattern and has rejected the patterns before
    it, the check throws what the matcher threw. *)
Lemma isBoostEnabledForFile_matcher_throw_escapes (h : Host) (w : World)
    (fileName : jsstring) (before : list jsstring) (p : jsstring)
    (rest : list jsstring) (e : JsError) :
  patternsAt w = Value (before ++ p :: rest) ->
  ~ In (lit "*") (before ++ p :: rest) ->
  Forall (fun q => minimatch h (baseNameOf fileName) q = Normal false) before ->
  minimatch h (baseNameOf fileName) p = Throw e ->
  outcome (isBoostEnabledForFile h fileName) w = Throw e.
Proof.
  unfold patternsAt, isBoostEnabledForFile. intros Hpatterns Hstar Hbefore Hp.
  run. rewrite Hpatterns.
  destruct (Nat.eqb (length (before ++ p :: rest)) 0) eqn:Hlen.
  { apply Nat.eqb_eq, length_zero_iff_nil in Hlen. now destruct before. }
  destruct (includes (before ++ p :: rest) (lit "*")) eqn:Hinc.
  { apply includes_In in Hinc. contradiction. }
  match goal with
  | |- context [some ?f (before ++ p :: rest) ?w1] =>
      pose proof (some_minimatch_throws h (baseNameOf fileName) before p rest e w1
                    Hbefore Hp) as Hrun;
      revert Hrun; run;
      destruct (some f (before ++ p :: rest) w1) as [[m|e'] w1'];
      cbn [fst snd]; intros Hrun; [discriminate | exact Hrun]
  end.
Qed.

(** C8, as stated, fails once the matcher throws: with a glob library that
    rejects patterns of more than 65536 code units by throwing, a
    configured pattern of 65537 code units makes the check throw. *)
Lemma isBoostEnabledForFile_throws_with_matcher :
  let h := quiet (guarded 65536%N glob) in
  let w := world [] (Value [repeat 97%N (N.to_nat 65537)]) emptyString Absent in
  outcome (isBoostEnabledForFile h (lit "notes.md")) w = Throw (lit "pattern is too long")
  /\ ~ exists enabled, outcome (isBoostEnabledForFile h (lit "notes.md")) w = Normal enabled.
Proof.
  cbv zeta.
  assert (E : outcome (isBoostEnabledForFile (quiet (guarded 65536%N glob)) (lit "notes.md"))
                (world [] (Value [repeat 97%N (N.to_nat 65537)]) emptyString Absent)
              = Throw (lit "pattern is too long")) by (vm_compute; reflexivity).
  split; [exact E|]. intros [enabled H]. rewrite E in H. discriminate.
Qed.

(* ================================================================== *)
(** ** Instruction file *)

Lemma DEFAULT_BOOST_INSTRUCTIONS_nonempty : DEFAULT_BOOST_INSTRUCTIONS <> [].
Proof. vm_compute. discriminate. Qed.

(** A read returns the instruction text of the world and does not throw. *)
Lemma readInstructionFile_run (h : Host) (context : ExtensionContext) (w : World) :
  exists w', readInstructionFile h context w = (Normal (instructionsAt h context w), w').
Proof.
  unfold readInstructionFile, instructionsAt, existsSync, readFileSync. run.
  destruct (fs w (getInstructionFilePath h context)) eqn:E; cbn; rewrite ?E; eexists; reflexivity.
Qed.

(** C9, as the code has it.  A read never throws; it returns the contents
    of the file when the file is present and readable, whatever they are,
    and the default template otherwise; the default template is not
    empty. *)
Theorem readInstructionFile_total (h : Host) (context : ExtensionContext) (w : World) :
  outcome (readInstructionFile h context) w
  = Normal (match fs w (getInstructionFilePath h context) with
            | File content => content
            | Absent | Unreadable _ => DEFAULT_BOOST_INSTRUCTIONS
            end)
  /\ DEFAULT_BOOST_INSTRUCTIONS <> [].
Proof.
  split; [|apply DEFAULT_BOOST_INSTRUCTIONS_nonempty].
  destruct (readInstructionFile_run h context w) as [w' E].
  unfold outcome. rewrite E. reflexivity.
Qed.

(** C9, as stated, fails on an empty instruction file: the read returns
    its contents, the empty string. *)
Lemma readInstructionFile_empty_file :
  outcome (readInstructionFile host storage)
    (world [] (Value [lit "*.prompt.md"]) emptyString (File emptyString))
  = Normal emptyString
  /\ emptyString = [].
Proof. split; reflexivity. Qed.

(* ================================================================== *)
(** ** Boost workflow *)

(** Draining a stream that completes appends its fragments in the order
    of their arrival. *)
Lemma forAwait_fragments (chunks : list jsstring) (enhanced : jsstring) :
  forAwait (fragments chunks) enhanced = Normal (enhanced ++ concat chunks).
Proof.
  revert enhanced; induction chunks as [|chunk rest IH]; intros enhanced; simpl.
  - now rewrite app_nil_r.
  - now rewrite IH, app_assoc.
Qed.

(** A boost never throws, and its result is decided by the answer of the
    endpoint to the request built from the instructions and the prompt. *)
Lemma boostPrompt_run (h : Host) (promptText : jsstring) (model : LanguageModelChat)
    (context : ExtensionContext) (w : World) :
  outcome (boostPrompt h promptText model context) w
  = Normal (classify promptText
              (sendRequest model
                 (requestMessages (instructionsAt h context w) promptText))).
Proof.
  unfold boostPrompt, classify.
  destruct (readInstructionFile_run h context w) as [w' Hread].
  run. rewrite Hread. cbn [fst snd].
  destruct (sendRequest model _) as [[response|]|err]; cbn [fst snd]; try reflexivity.
  destruct (forAwait (text response) emptyString) as [enhanced|err];
    cbn [fst snd]; [|reflexivity].
  destruct (truthy (trim enhanced)); reflexivity.
Qed.

(** C1.  When the submission throws, the boost returns the prompt it was
    given with status [failed]; it returns, so nothing is thrown to the
    caller. *)
Theorem boostPrompt_submission_throws (h : Host) (promptText : jsstring)
    (model : LanguageModelChat) (context : ExtensionContext) (w : World)
    (err : JsError) :
  sendRequest model (requestMessages (instructionsAt h context w) promptText)
    = Throw err ->
  outcome (boostPrompt h promptText model context) w
  = Normal {| result := promptText; status := failed |}.
Proof.
  intros Hsend. rewrite boostPrompt_run, Hsend. reflexivity.
Qed.

Lemma boostPrompt_submission_throws_witness :
  outcome (boostPrompt host (lit "fix my bug")
             (endpoint (lit "gpt-x") (lit "gpt-x") (Throw (lit "Error: offline")))
             storage)
    (world [] (Value [lit "*.prompt.md"]) emptyString Absent)
  = Normal {| result := lit "fix my bug"; status := failed |}.
Proof.
  apply (boostPrompt_submission_throws host (lit "fix my bug")
           (endpoint (lit "gpt-x") (lit "gpt-x") (Throw (lit "Error: offline")))
           storage (world [] (Value [lit "*.prompt.md"]) emptyString Absent)
           (lit "Error: offline")).
  reflexivity.
Defined.

(** C2.  When the fragments of a completed stream add up to an empty or
    whitespace-only string, the boost returns the prompt it was given, not
    the fragments, with status [failed]. *)
Theorem boostPrompt_blank_response (h : Host) (promptText : jsstring)
    (model : LanguageModelChat) (context : ExtensionContext) (w : World)
    (chunks : list jsstring) :
  sendRequest model (requestMessages (instructionsAt h context w) promptText)
    = Normal (Some {| text := fragments chunks |}) ->
  trim (concat chunks) = [] ->
  outcome (boostPrompt h promptText model context) w
  = Normal {| result := promptText; status := failed |}.
Proof.
  intros Hsend Hblank. rewrite boostPrompt_run, Hsend.
  unfold classify. cbn [text]. rewrite forAwait_fragments.
  cbn [emptyString app]. rewrite Hblank. reflexivity.
Qed.

Lemma boostPrompt_blank_response_witness :
  outcome (boostPrompt host (lit "fix my bug")
             (endpoint (lit "gpt-x") (lit "gpt-x")
                (streaming [lit "  "; [10; 9]%N; [160; 8232]%N]))
             storage)
    (world [] (Value [lit "*.prompt.md"]) emptyString Absent)
  = Normal {| result := lit "fix my bug"; status := failed |}.
Proof.
  apply (boostPrompt_blank_response host (lit "fix my bug")
           (endpoint (lit "gpt-x") (lit "gpt-x")
              (streaming [lit "  "; [10; 9]%N; [160; 8232]%N]))
           storage (world [] (Value [lit "*.prompt.md"]) emptyString Absent)
           [lit "  "; [10; 9]%N; [160; 8232]%N]);
    reflexivity.
Defined.

(** C3.  When the stream completes and its fragments add up to more than
    whitespace, the boost returns the fragments concatenated in the order
    of their arrival, with status [success]; the fragments "Please ",
    "describe ", "the bug." for the prompt "fix my bug" give
    "Please describe the bug.". *)
Theorem boostPrompt_success (h : Host) (promptText : jsstring)
    (model : LanguageModelChat) (context : ExtensionContext) (w : World)
    (chunks : list jsstring) :
  (sendRequest model (requestMessages (instructionsAt h context w) promptText)
     = Normal (Some {| text := fragments chunks |}) ->
   trim (concat chunks) <> [] ->
   outcome (boostPrompt h promptText model context) w
   = Normal {| result := concat chunks; status := success |})
  /\ outcome (boostPrompt h (lit "fix my bug")
                (endpoint (lit "gpt-x") (lit "gpt-x")
                   (streaming [lit "Please "; lit "describe "; lit "the bug."]))
                context) w
     = Normal {| result := lit "Please describe the bug."; status := success |}.
Proof.
  split.
  - intros Hsend Htext. rewrite boostPrompt_run, Hsend.
    unfold classify. cbn [text]. rewrite forAwait_fragments.
    cbn [emptyString app].
    apply truthy_nonempty in Htext. rewrite Htext. reflexivity.
  - rewrite boostPrompt_run. reflexivity.
Qed.

Lemma boostPrompt_success_witness :
  outcome (boostPrompt host (lit "summarise")
             (endpoint (lit "gpt-x") (lit "gpt-x") (streaming [lit " Sum"; lit "mary "]))
             storage)
    (world [] (Value [lit "*.prompt.md"]) emptyString (File (lit "Improve:")))
  = Normal {| result := lit " Summary "; status := success |}.
Proof.
  apply (proj1 (boostPrompt_success host (lit "summarise")
           (endpoint (lit "gpt-x") (lit "gpt-x") (streaming [lit " Sum"; lit "mary "]))
           storage (world [] (Value [lit "*.prompt.md"]) emptyString (File (lit "Improve:")))
           [lit " Sum"; lit "mary "])).
  - reflexivity.
  - vm_compute. discriminate.
Defined.

(** C10.  Whatever the endpoint does, a boost returns, and the status of
    its result is [success] or [failed]: the test for [terminated] that
    the callers make on it is false. *)
Theorem boostPrompt_never_terminated (h : Host) (promptText : jsstring)
    (model : LanguageModelChat) (context : ExtensionContext) (w : World) :
  exists r,
    outcome (boostPrompt h promptText model context) w = Normal r
    /\ (status r = success \/ status r = failed)
    /\ Status_eqb (status r) terminated = false.
Proof.
  rewrite boostPrompt_run.
  exists (classify promptText
            (sendRequest model
               (requestMessages (instructionsAt h context w) promptText))).
  split; [reflexivity|].
  unfold classify.
  destruct (sendRequest model _) as [[response|]|err]; cbn [status Status_eqb];
    try (split; [right|]; reflexivity).
  destruct (forAwait (text response) emptyString) as [enhanced|err];
    cbn [status Status_eqb]; try (split; [right|]; reflexivity).
  destruct (truthy (trim enhanced)); cbn [status Status_eqb];
    [split; [left|]; reflexivity | split; [right|]; reflexivity].
Qed.

(* ================================================================== *)
(** ** Further properties: model selection *)

(** X1.  A lookup by name returns a cached model of that name, the first
    one in the cache, and finds nothing exactly when no cached model has
    the name. *)
Theorem findModelByName_lookup (modelName : jsstring) (w : World) :
  after (findModelByName modelName) w = w
  /\ match outcome (findModelByName modelName) w with
     | Normal (Some m) =>
         exists before rest,
           cachedAvailableModels w = before ++ m :: rest
           /\ name m = modelName
           /\ Forall (fun m' => name m' <> modelName) before
     | Normal None => Forall (fun m' => name m' <> modelName) (cachedAvailableModels w)
     | Throw _ => False
     end.
Proof.
  unfold findModelByName. run. split; [reflexivity|].
  induction (cachedAvailableModels w) as [|m0 cache IH]; cbn [find].
  - constructor.
  - destruct (JS.eqb (name m0) modelName) eqn:E.
    + apply eqb_eq in E. exists [], cache. repeat split; [assumption | constructor].
    + assert (Hneq : name m0 <> modelName).
      { intros Heq. apply eqb_eq in Heq. congruence. }
      destruct (find _ cache) as [m|].
      * destruct IH as (before & rest & -> & Hname & Hbefore).
        exists (m0 :: before), rest. repeat split; [assumption | now constructor].
      * now constructor.
Qed.

(** When some cached model has the name, [find] returns one. *)
Lemma find_by_name_some (modelName : jsstring) (cache : list LanguageModelChat) :
  (exists m0, In m0 cache /\ name m0 = modelName) ->
  exists m, find (fun m' => JS.eqb (name m') modelName) cache = Some m
            /\ In m cache /\ name m = modelName.
Proof.
  intros (m0 & Hin & Hname).
  destruct (find (fun m' => JS.eqb (name m') modelName) cache) as [m|] eqn:E.
  - apply find_some in E as [Hm Heq]. apply eqb_eq in Heq. eauto.
  - exfalso. apply (find_none _ _ E) in Hin. rewrite Hname, eqb_refl in Hin.
    discriminate.
Qed.

Lemma find_by_name_none (modelName : jsstring) (cache : list LanguageModelChat) :
  (forall m0, In m0 cache -> name m0 <> modelName) ->
  find (fun m' => JS.eqb (name m') modelName) cache = None.
Proof.
  intros Hnone.
  destruct (find (fun m' => JS.eqb (name m') modelName) cache) as [m|] eqn:E;
    [|reflexivity].
  apply find_some in E as [Hm Heq]. apply eqb_eq in Heq.
  now apply Hnone in Hm.
Qed.

Lemma length_eqb_0_false {A : Type} (l : list A) :
  l <> [] -> Nat.eqb (length l) 0 = false.
Proof. destruct l; [congruence | reflexivity]. Qed.

(** X2.  A preference that names a cached model is used directly: the
    selection returns a cached model of that name and asks nothing; the
    window and the configuration stay as they were. *)
Theorem getSelectedLanguageModel_preferred_cached (h : Host) (w : World) :
  preferenceAt w <> [] ->
  (exists m0, In m0 (cachedAvailableModels w) /\ name m0 = preferenceAt w) ->
  exists m,
    outcome (getSelectedLanguageModel h) w = Normal (Some m)
    /\ In m (cachedAvailableModels w)
    /\ name m = preferenceAt w
    /\ window (after (getSelectedLanguageModel h) w) = window w
    /\ configuration (after (getSelectedLanguageModel h) w) = configuration w.
Proof.
  unfold preferenceAt. intros Hpref Hcached.
  destruct (find_by_name_some _ _ Hcached) as (m & Hfind & Hin & Hname).
  exists m.
  unfold getSelectedLanguageModel, getAvailableModels, getPreferredModel,
    findModelByName. run.
  rewrite length_eqb_0_false by (intros E; rewrite E in Hin; exact Hin).
  apply truthy_nonempty in Hpref. rewrite Hpref. cbn [fst snd].
  rewrite Hfind. cbn [fst snd window configuration]. auto.
Qed.

Lemma getSelectedLanguageModel_preferred_cached_witness :
  let gpt := endpoint (lit "gpt-x") (lit "GPT X") (streaming []) in
  let w := world [endpoint (lit "o1") (lit "O One") (streaming []); gpt]
             (Value [lit "*.prompt.md"]) (lit "GPT X") Absent in
  exists m,
    outcome (getSelectedLanguageModel host) w = Normal (Some m)
    /\ In m (cachedAvailableModels w)
    /\ name m = preferenceAt w
    /\ window (after (getSelectedLanguageModel host) w) = window w
    /\ configuration (after (getSelectedLanguageModel host) w) = configuration w.
Proof.
  cbv zeta. apply getSelectedLanguageModel_preferred_cached.
  - vm_compute. discriminate.
  - eexists. split; [right; left; reflexivity | reflexivity].
Defined.

(** X3.  A preference that names no cached model is not used silently:
    the user is asked once, and unless the answer is "Select Model" the
    selection returns [undefined] without showing the chooser and without
    touching the configuration. *)
Theorem getSelectedLanguageModel_preferred_missing_declined (h : Host) (w : World) :
  cachedAvailableModels w <> [] ->
  preferenceAt w <> [] ->
  (forall m0, In m0 (cachedAvailableModels w) -> name m0 <> preferenceAt w) ->
  warningReply h (notFoundQuestion (preferenceAt w)) [lit "Select Model"]
    <> Some (lit "Select Model") ->
  outcome (getSelectedLanguageModel h) w = Normal None
  /\ window (after (getSelectedLanguageModel h) w)
     = window w ++ [ShowWarningMessage (notFoundQuestion (preferenceAt w))
                      [lit "Select Model"]]
  /\ configuration (after (getSelectedLanguageModel h) w) = configuration w.
Proof.
  unfold preferenceAt, notFoundQuestion. intros Hcache Hpref Hmissing Hreply.
  unfold getSelectedLanguageModel, getAvailableModels, getPreferredModel,
    findModelByName, showWarningMessage. run.
  rewrite (length_eqb_0_false _ Hcache).
  apply truthy_nonempty in Hpref. rewrite Hpref. cbn [fst snd].
  rewrite (find_by_name_none _ _ Hmissing). cbn [fst snd].
  destruct (warningReply h _ _) as [chosen|] eqn:Hanswer; cbn [fst snd].
  - destruct (JS.eqb chosen (lit "Select Model")) eqn:E.
    + apply eqb_eq in E. subst chosen. contradiction.
    + cbn. auto.
  - cbn. auto.
Qed.

Lemma getSelectedLanguageModel_preferred_missing_declined_witness :
  let w := world [endpoint (lit "gpt-x") (lit "GPT X") (streaming [])]
             (Value [lit "*.prompt.md"]) (lit "Claude") Absent in
  outcome (getSelectedLanguageModel host) w = Normal None
  /\ window (after (getSelectedLanguageModel host) w)
     = window w ++ [ShowWarningMessage (notFoundQuestion (preferenceAt w))
                      [lit "Select Model"]]
  /\ configuration (after (getSelectedLanguageModel host) w) = configuration w.
Proof.
  cbv zeta. apply getSelectedLanguageModel_preferred_missing_declined.
  - discriminate.
  - vm_compute. discriminate.
  - intros m0 [<- | []]. vm_compute. discriminate.
  - discriminate.
Defined.



(** X5.  When the configuration refuses the write, [selectModel] throws
    what the write threw, after the quick pick and the "Selected: ..."
    message have been shown; the configuration is as it was. *)
Theorem selectModel_write_refused (h : Host) (w : World) (item : QuickPickItem)
    (err : JsError) :
  cachedAvailableModels w <> [] ->
  quickPickReply h (offered w) = Some item ->
  configurationUpdate h (name (model item)) = Throw err ->
  outcome (selectModel h) w = Throw err
  /\ configuration (after (selectModel h) w) = configuration w
  /\ window (after (selectModel h) w)
     = window w
       ++ [ShowQuickPick (offered w) (lit "Select a Language Model")
             (lit "Choose a model to boost your prompt");
           ShowInformationMessage (lit "Selected: " ++ name (model item))].
Proof.
  intros Hcache Hpick Hwrite.
  unfold selectModel, showQuickPick, setPreferredModel, updatePreferredModel.
  fold (offered w). run.
  rewrite (length_eqb_0_false _ Hcache). cbn [fst snd].
  fold (offered w). rewrite Hpick. cbn [fst snd]. rewrite Hwrite.
  cbn. rewrite <- app_assoc. auto.
Qed.

Lemma selectModel_write_refused_witness :
  let gpt := endpoint (lit "gpt-x") (lit "GPT X") (streaming []) in
  let w := world [gpt] (Value [lit "*.prompt.md"]) emptyString Absent in
  let h := readOnly (lit "EROFS") in
  outcome (selectModel h) w = Throw (lit "EROFS")
  /\ configuration (after (selectModel h) w) = configuration w
  /\ window (after (selectModel h) w)
     = window w
       ++ [ShowQuickPick (offered w) (lit "Select a Language Model")
             (lit "Choose a model to boost your prompt");
           ShowInformationMessage (lit "Selected: " ++ name gpt)].
Proof.
  cbv zeta.
  apply (selectModel_write_refused (readOnly (lit "EROFS"))
           (world [endpoint (lit "gpt-x") (lit "GPT X") (streaming [])]
              (Value [lit "*.prompt.md"]) emptyString Absent)
           {| label := lit "GPT X"; description := lit "gpt";
              model := endpoint (lit "gpt-x") (lit "GPT X") (streaming []) |}
           (lit "EROFS"));
    [discriminate | reflexivity | reflexivity].
Defined.

(** X6.  Dismissing the chooser changes nothing but the log: [selectModel]
    returns [undefined], and the configuration and the cache are as they
    were. *)
Theorem selectModel_dismissed (h : Host) (w : World) :
  cachedAvailableModels w <> [] ->
  quickPickReply h (offered w) = None ->
  outcome (selectModel h) w = Normal None
  /\ configuration (after (selectModel h) w) = configuration w
  /\ cachedAvailableModels (after (selectModel h) w) = cachedAvailableModels w
  /\ outputChannel (after (selectModel h) w)
     = outputChannel w ++ [LogSelectionCancelled].
Proof.
  intros Hcache Hpick.
  unfold selectModel, showQuickPick. fold (offered w). run.
  rewrite (length_eqb_0_false _ Hcache). cbn [fst snd].
  fold (offered w). rewrite Hpick. cbn. auto.
Qed.

Lemma selectModel_dismissed_witness :
  let w := world [endpoint (lit "gpt-x") (lit "GPT X") (streaming [])]
             (Value [lit "*.prompt.md"]) emptyString Absent in
  outcome (selectModel host) w = Normal None
  /\ configuration (after (selectModel host) w) = configuration w
  /\ cachedAvailableModels (after (selectModel host) w) = cachedAvailableModels w
  /\ outputChannel (after (selectModel host) w)
     = outputChannel w ++ [LogSelectionCancelled].
Proof.
  cbv zeta. apply selectModel_dismissed; [discriminate | reflexivity].
Defined.

(** *** Sequencing *)

Lemma outcome_bind {A B : Type} (m : M A) (k : A -> M B) (w : World) (a : A) :
  outcome m w = Normal a ->
  outcome (bind m k) w = outcome (k a) (after m w)
  /\ after (bind m k) w = after (k a) (after m w).
Proof.
  unfold outcome, after, bind. destruct (m w) as [[a'|e] w']; cbn [fst snd].
  - intros [= ->]. split; reflexivity.
  - discriminate.
Qed.

Lemma outcome_bind_throw {A B : Type} (m : M A) (k : A -> M B) (w : World)
    (e : JsError) :
  outcome m w = Throw e ->
  outcome (bind m k) w = Throw e /\ after (bind m k) w = after m w.
Proof.
  unfold outcome, after, bind. destruct (m w) as [[a'|e'] w']; cbn [fst snd].
  - discriminate.
  - intros [= ->]. split; reflexivity.
Qed.

(** The chooser returns one of the cached models when the user picks among
    the items offered. *)
Lemma selectModel_returns_cached (h : Host) (w : World) (m : LanguageModelChat) :
  picksOffered h ->
  outcome (selectModel h) w = Normal (Some m) ->
  In m (cachedAvailableModels w).
Proof.
  intros Hpicks.
  unfold selectModel, showQuickPick, setPreferredModel, updatePreferredModel.
  fold (offered w). run.
  destruct (Nat.eqb (length (cachedAvailableModels w)) 0); cbn [fst snd];
    [discriminate|].
  fold (offered w).
  destruct (quickPickReply h (offered w)) as [item|] eqn:Hpick; cbn [fst snd];
    [|discriminate].
  apply Hpicks in Hpick. unfold offered in Hpick.
  apply in_map_iff in Hpick as (m0 & <- & Hin). cbn [model name].
  destruct (configurationUpdate h (name m0)) as [[]|err]; cbn [fst snd];
    [|discriminate].
  intros [= <-]. exact Hin.
Qed.

(** The same holds on every path of the selection for a boost. *)
Lemma getSelectedLanguageModel_in_cache (h : Host) (w : World)
    (m : LanguageModelChat) :
  picksOffered h ->
  outcome (getSelectedLanguageModel h) w = Normal (Some m) ->
  In m (cachedAvailableModels w).
Proof.
  intros Hpicks.
  pose proof (selectModel_returns_cached h w m Hpicks) as Hselect.
  revert Hselect.
  unfold getSelectedLanguageModel, getAvailableModels, getPreferredModel,
    findModelByName, showWarningMessage. run.
  destruct (Nat.eqb (length (cachedAvailableModels w)) 0); cbn [fst snd];
    [discriminate|].
  destruct (truthy (get_preferredModel (configuration w) emptyString));
    cbn [fst snd]; [|auto].
  destruct (find _ (cachedAvailableModels w)) as [preferred|] eqn:Hfind;
    cbn [fst snd].
  - intros _ [= <-]. now apply find_some in Hfind.
  - destruct (warningReply h _ _) as [chosen|]; cbn [fst snd]; [|discriminate].
    destruct (JS.eqb chosen (lit "Select Model")); cbn [fst snd]; [|discriminate].
    intros Hselect Hrun.
    pose proof (selectModel_returns_cached h
      {| cachedAvailableModels := cachedAvailableModels w;
         configuration := configuration w;
         fs := fs w;
         outputChannel := outputChannel w;
         window := window w
                   ++ [ShowWarningMessage
                         (lit "Preferred model " ++
                          [34%N] ++
                          get_preferredModel (configuration w) emptyString ++
                          [34%N] ++ lit " not found. Select new?")
                         [lit "Select Model"]] |} m Hpicks) as Hgoal.
    apply Hgoal. exact Hrun.
Qed.

(** X7.  Whether the chooser is opened directly or through the selection
    for a boost, a model that comes back is one of the cache, provided the
    user picks among the items the chooser offers. *)
Theorem selection_returns_cached (h : Host) (w : World) (m : LanguageModelChat) :
  picksOffered h ->
  (outcome (selectModel h) w = Normal (Some m) -> In m (cachedAvailableModels w))
  /\ (outcome (getSelectedLanguageModel h) w = Normal (Some m) ->
      In m (cachedAvailableModels w)).
Proof.
  intros Hpicks. split.
  - now apply selectModel_returns_cached.
  - now apply getSelectedLanguageModel_in_cache.
Qed.

Lemma picksOffered_decided (mm : jsstring -> jsstring -> Completion bool) :
  picksOffered (decided mm).
Proof.
  intros [|first items] item; cbn; [discriminate|].
  intros [= <-]. now left.
Qed.

Lemma selection_returns_cached_witness :
  let gpt := endpoint (lit "gpt-x") (lit "GPT X") (streaming []) in
  let w := world [gpt] (Value [lit "*.prompt.md"]) (lit "Claude") Absent in
  outcome (getSelectedLanguageModel (decided (minimatch host))) w = Normal (Some gpt)
  /\ In gpt (cachedAvailableModels w).
Proof.
  cbv zeta. split; [reflexivity|].
  apply (proj2 (selection_returns_cached (decided (minimatch host))
                  (world [endpoint (lit "gpt-x") (lit "GPT X") (streaming [])]
                     (Value [lit "*.prompt.md"]) (lit "Claude") Absent)
                  (endpoint (lit "gpt-x") (lit "GPT X") (streaming []))
                  (picksOffered_decided (minimatch host)))).
  reflexivity.
Defined.

(* ================================================================== *)
(** ** Further properties: discovery *)

(** The world a discovery leaves: only the cache and the log can differ. *)
Lemma initializeAndCacheModels_after (h : Host) (w : World) :
  outcome (initializeAndCacheModels h) w = Normal tt
  /\ cachedAvailableModels (after (initializeAndCacheModels h) w)
     = match selectChatModels h with
       | Normal (m :: ms) => filter notAuto (m :: ms)
       | Normal [] | Throw _ => cachedAvailableModels w
       end
  /\ configuration (after (initializeAndCacheModels h) w) = configuration w
  /\ fs (after (initializeAndCacheModels h) w) = fs w
  /\ window (after (initializeAndCacheModels h) w) = window w.
Proof.
  unfold initializeAndCacheModels, setCachedAvailableModels. run.
  destruct (selectChatModels h) as [[|m ms]|e]; cbn; auto.
Qed.

(** X8.  Discovery is idempotent on the cache: with the same answer of
    the host, a second discovery leaves the cache the first one left; and
    a discovery never touches the configuration, the file system or the
    window. *)
Theorem initializeAndCacheModels_idempotent (h : Host) (w : World) :
  outcome (initializeAndCacheModels h ;;; initializeAndCacheModels h) w = Normal tt
  /\ cachedAvailableModels
       (after (initializeAndCacheModels h ;;; initializeAndCacheModels h) w)
     = cachedAvailableModels (after (initializeAndCacheModels h) w)
  /\ configuration (after (initializeAndCacheModels h) w) = configuration w
  /\ fs (after (initializeAndCacheModels h) w) = fs w
  /\ window (after (initializeAndCacheModels h) w) = window w.
Proof.
  destruct (initializeAndCacheModels_after h w) as (Hrun & Hcache & Hcfg & Hfs & Hwin).
  destruct (outcome_bind (initializeAndCacheModels h)
              (fun _ => initializeAndCacheModels h) w tt Hrun) as [Hout Hafter].
  destruct (initializeAndCacheModels_after h (after (initializeAndCacheModels h) w))
    as (Hrun2 & Hcache2 & _).
  rewrite Hout, Hafter, Hrun2, Hcache2.
  repeat split; try assumption.
  destruct (selectChatModels h) as [[|m ms]|e]; [reflexivity | | reflexivity].
  symmetry. exact Hcache.
Qed.

(** X9.  After a discovery that found endpoints, the selection never
    returns the endpoint "auto": a model it returns is one the host
    reported, with another id, provided the user picks among the items
    offered. *)
Theorem getSelectedLanguageModel_after_discovery (h : Host) (w : World)
    (found : list LanguageModelChat) (m : LanguageModelChat) :
  selectChatModels h = Normal found ->
  found <> [] ->
  picksOffered h ->
  outcome (initializeAndCacheModels h ;;; getSelectedLanguageModel h) w
    = Normal (Some m) ->
  In m found /\ id m <> lit "auto".
Proof.
  intros Hfound Hnonempty Hpicks.
  destruct (initializeAndCacheModels_after h w) as (Hrun & Hcache & _).
  destruct (outcome_bind (initializeAndCacheModels h)
              (fun _ => getSelectedLanguageModel h) w tt Hrun) as [Hout _].
  rewrite Hout. intros Hselected.
  apply getSelectedLanguageModel_in_cache in Hselected; [|assumption].
  rewrite Hcache, Hfound in Hselected.
  destruct found as [|m0 ms]; [congruence|].
  apply filter_In in Hselected as [Hin Hid].
  split; [assumption | now apply notAuto_spec].
Qed.

Lemma picksOffered_discovering (found : Completion (list LanguageModelChat)) :
  picksOffered (discovering found).
Proof.
  intros [|first items] item; cbn; [discriminate|].
  intros [= <-]. now left.
Qed.

Lemma getSelectedLanguageModel_after_discovery_witness :
  let auto := endpoint (lit "auto") (lit "Auto") (streaming []) in
  let gpt := endpoint (lit "gpt-x") (lit "GPT X") (streaming []) in
  let w := world [] (Value [lit "*.prompt.md"]) emptyString Absent in
  outcome (initializeAndCacheModels (discovering (Normal [auto; gpt])) ;;;
           getSelectedLanguageModel (discovering (Normal [auto; gpt]))) w
    = Normal (Some gpt)
  /\ In gpt [auto; gpt] /\ id gpt <> lit "auto".
Proof.
  cbv zeta. split; [reflexivity|].
  apply (getSelectedLanguageModel_after_discovery
           (discovering (Normal [endpoint (lit "auto") (lit "Auto") (streaming []);
                                 endpoint (lit "gpt-x") (lit "GPT X") (streaming [])]))
           (world [] (Value [lit "*.prompt.md"]) emptyString Absent)
           [endpoint (lit "auto") (lit "Auto") (streaming []);
            endpoint (lit "gpt-x") (lit "GPT X") (streaming [])]).
  - reflexivity.
  - discriminate.
  - apply picksOffered_discovering.
  - reflexivity.
Defined.

(* ================================================================== *)
(** ** Further properties: file eligibility *)

(** The last segment of a split: the whole string when it has no
    separator, and otherwise what follows its last separator. *)
Lemma pop_split_from_cases (s cur : jsstring) :
  (separatorFree s
   /\ pop (split_from isSeparator s cur) = Some (rev cur ++ s))
  \/ (exists x c y,
        s = x ++ c :: y /\ isSeparator c = true /\ separatorFree y
        /\ pop (split_from isSeparator s cur) = Some y).
Proof.
  revert cur. induction s as [|d s IH]; intros cur; cbn [split_from].
  - left. split; [intros c [] | now rewrite app_nil_r].
  - destruct (isSeparator d) eqn:Hd.
    + right. rewrite pop_cons by apply split_from_nonempty.
      destruct (IH []) as [[Hfree Hpop] | (x & c & y & -> & Hc & Hy & Hpop)].
      * exists [], d, s. now repeat split.
      * exists (d :: x), c, y. now repeat split.
    + destruct (IH (d :: cur)) as [[Hfree Hpop] | (x & c & y & -> & Hc & Hy & Hpop)].
      * left. split.
        -- intros c [<- | Hin]; [assumption | now apply Hfree].
        -- rewrite Hpop. cbn [rev]. now rewrite <- app_assoc.
      * right. exists (d :: x), c, y. now repeat split.
Qed.

(** X10.  The base name is a suffix of the file name: the whole name, or
    else a non-empty run without separators that follows a separator. *)
Theorem baseNameOf_suffix (fileName : jsstring) :
  exists dir,
    fileName = dir ++ baseNameOf fileName
    /\ (dir = []
        \/ ((exists x c, dir = x ++ [c] /\ isSeparator c = true)
            /\ separatorFree (baseNameOf fileName)
            /\ baseNameOf fileName <> [])).
Proof.
  unfold baseNameOf, split.
  destruct (pop_split_from_cases fileName [])
    as [[Hfree Hpop] | (x & c & y & Hname & Hc & Hy & Hpop)]; rewrite Hpop.
  - exists []. cbn [rev app]. split; [|now left].
    unfold JS.or. now destruct (truthy fileName).
  - unfold JS.or. destruct y as [|d y]; cbn [truthy].
    + exists []. split; [reflexivity | now left].
    + exists (x ++ [c]). split.
      * rewrite Hname, <- app_assoc. reflexivity.
      * right. split; [now exists x, c|]. split; [assumption | discriminate].
Qed.

Lemma baseNameOf_separatorFree (fileName : jsstring) :
  separatorFree fileName -> baseNameOf fileName = fileName.
Proof.
  intros Hfree. unfold baseNameOf, split.
  destruct (pop_split_from_cases fileName [])
    as [[_ Hpop] | (x & c & y & Hname & Hc & _ & _)].
  - rewrite Hpop. cbn [rev app]. unfold JS.or. now destruct (truthy fileName).
  - exfalso. assert (Hin : In c fileName) by (rewrite Hname; apply in_elt).
    apply Hfree in Hin. congruence.
Qed.

Lemma baseNameOf_whole_or_free (fileName : jsstring) :
  baseNameOf fileName = fileName \/ separatorFree (baseNameOf fileName).
Proof.
  unfold baseNameOf, split.
  destruct (pop_split_from_cases fileName [])
    as [[Hfree Hpop] | (x & c & y & Hname & Hc & Hy & Hpop)]; rewrite Hpop.
  - left. cbn [rev app]. unfold JS.or. now destruct (truthy fileName).
  - unfold JS.or. destruct (truthy y); [now right | now left].
Qed.

(** X11.  Taking the base name twice is taking it once, and a name
    without separators is its own base name. *)
Theorem baseNameOf_idempotent (fileName : jsstring) :
  baseNameOf (baseNameOf fileName) = baseNameOf fileName
  /\ (separatorFree fileName -> baseNameOf fileName = fileName).
Proof.
  split; [|apply baseNameOf_separatorFree].
  destruct (baseNameOf_whole_or_free fileName) as [Hwhole | Hfree].
  - now rewrite Hwhole.
  - now apply baseNameOf_separatorFree.
Qed.

Lemma baseNameOf_idempotent_witness :
  baseNameOf (baseNameOf (lit "C:\work\notes.prompt.md"))
  = baseNameOf (lit "C:\work\notes.prompt.md")
  /\ baseNameOf (lit "notes.prompt.md") = lit "notes.prompt.md".
Proof.
  split.
  - apply (proj1 (baseNameOf_idempotent (lit "C:\work\notes.prompt.md"))).
  - apply (proj2 (baseNameOf_idempotent (lit "notes.prompt.md"))).
    intros c Hin. vm_compute in Hin.
    repeat (destruct Hin as [<- | Hin]; [reflexivity|]). destruct Hin.
Defined.

(** Once a pattern has matched, the patterns after it are not tried:
    whatever follows in the list, the iteration answers true. *)
Lemma some_true_app (h : Host) (baseName : jsstring) (ps qs : list jsstring)
    (w w' : World) :
  outcome (some (fun pattern =>
                   result <- await (minimatch h baseName pattern) ;;
                   appendLine (LogPattern pattern result) ;;;
                   ret result) ps) w = Normal true ->
  outcome (some (fun pattern =>
                   result <- await (minimatch h baseName pattern) ;;
                   appendLine (LogPattern pattern result) ;;;
                   ret result) (ps ++ qs)) w' = Normal true.
Proof.
  revert w w'. induction ps as [|p ps IH]; intros w w'; cbn [some app].
  - discriminate.
  - specialize (IH (after (appendLine (LogPattern p false)) w)
                   (after (appendLine (LogPattern p false)) w')).
    revert IH. run.
    destruct (minimatch h baseName p) as [[|]|e]; cbn [fst snd]; auto.
Qed.

(** The iteration over the patterns writes to the log only. *)
Lemma some_onlyLogged (h : Host) (baseName : jsstring) (patterns : list jsstring)
    (w : World) :
  onlyLogged w
    (after (some (fun pattern =>
                    result <- await (minimatch h baseName pattern) ;;
                    appendLine (LogPattern pattern result) ;;;
                    ret result) patterns) w).
Proof.
  revert w. induction patterns as [|p rest IH]; intros w; cbn [some].
  - unfold onlyLogged. run. auto.
  - specialize (IH (after (appendLine (LogPattern p false)) w)).
    revert IH. unfold onlyLogged. run.
    destruct (minimatch h baseName p) as [[|]|e]; cbn; auto.
Qed.

(** The iteration over the patterns only adds lines to the log. *)
Lemma some_appends (h : Host) (baseName : jsstring) (patterns : list jsstring)
    (w : World) :
  exists lines,
    outputChannel
      (after (some (fun pattern =>
                      result <- await (minimatch h baseName pattern) ;;
                      appendLine (LogPattern pattern result) ;;;
                      ret result) patterns) w)
    = outputChannel w ++ lines.
Proof.
  revert w. induction patterns as [|p rest IH]; intros w; cbn [some].
  - exists []. run. now rewrite app_nil_r.
  - specialize (IH (after (appendLine (LogPattern p false)) w)).
    revert IH. run.
    destruct (minimatch h baseName p) as [[|]|e]; cbn [fst snd outputChannel].
    + intros _. eexists. reflexivity.
    + intros [lines Hlines]. rewrite Hlines. eexists.
      rewrite <- app_assoc. reflexivity.
    + intros _. exists []. now rewrite app_nil_r.
Qed.

(** X12.  Patterns added behind the configured ones cannot take
    eligibility away: a file that is eligible under a list of patterns
    that is not empty stays eligible when more patterns follow, even
    patterns on which the matcher would throw. *)
Theorem isBoostEnabledForFile_more_patterns (h : Host) (fileName : jsstring)
    (w w' : World) (ps qs : list jsstring) :
  patternsAt w = Value ps ->
  ps <> [] ->
  patternsAt w' = Value (ps ++ qs) ->
  outcome (isBoostEnabledForFile h fileName) w = Normal true ->
  outcome (isBoostEnabledForFile h fileName) w' = Normal true.
Proof.
  unfold patternsAt, isBoostEnabledForFile. intros Hps Hne Hpsqs. run.
  rewrite Hps, Hpsqs.
  rewrite (length_eqb_0_false ps Hne).
  rewrite (length_eqb_0_false (ps ++ qs))
    by (destruct ps; [congruence | discriminate]).
  destruct (includes (ps ++ qs) (lit "*")) eqn:Hstar'; [reflexivity|].
  destruct (includes ps (lit "*")) eqn:Hstar.
  { apply includes_In in Hstar.
    assert (Hin : In (lit "*") (ps ++ qs)) by (apply in_or_app; now left).
    apply includes_In in Hin. congruence. }
  match goal with
  | |- fst (match some ?f ps ?w1 with _ => _ end) = _ ->
       fst (match some ?f' (ps ++ qs) ?w2 with _ => _ end) = _ =>
      pose proof (some_true_app h (baseNameOf fileName) ps qs w1 w2) as Happ;
      revert Happ; run;
      destruct (some f ps w1) as [[[|]|e1] w1']; cbn [fst snd];
        try discriminate;
      destruct (some f' (ps ++ qs) w2) as [[m2|e2] w2']; cbn [fst snd];
      intros Happ _; specialize (Happ eq_refl); congruence
  end.
Qed.

Lemma isBoostEnabledForFile_more_patterns_witness :
  outcome (isBoostEnabledForFile (quiet (guarded 8%N glob)) (lit "notes.md"))
    (world [] (Value [lit "*.md"; lit "a-very-long-pattern"]) emptyString Absent)
  = Normal true.
Proof.
  apply (isBoostEnabledForFile_more_patterns (quiet (guarded 8%N glob)) (lit "notes.md")
           (world [] (Value [lit "*.md"]) emptyString Absent)
           (world [] (Value [lit "*.md"; lit "a-very-long-pattern"]) emptyString Absent)
           [lit "*.md"] [lit "a-very-long-pattern"]);
    [reflexivity | discriminate | reflexivity | reflexivity].
Defined.

(** An eligibility check leaves everything but the log as it was. *)
Lemma isBoostEnabledForFile_frame (h : Host) (fileName : jsstring) (w : World) :
  onlyLogged w (after (isBoostEnabledForFile h fileName) w).
Proof.
  unfold isBoostEnabledForFile.
  destruct (get_filePatterns (configuration w) [lit "*.prompt.md"])
    as [| |patterns] eqn:Hpatterns; run; rewrite Hpatterns; cbn [fst snd];
    try (unfold onlyLogged; cbn; now auto).
  destruct (Nat.eqb (length patterns) 0); cbn [fst snd];
    try (unfold onlyLogged; cbn; now auto).
  destruct (includes patterns (lit "*")); cbn [fst snd];
    try (unfold onlyLogged; cbn; now auto).
  match goal with
  | |- context [some ?f patterns ?w1] =>
      pose proof (some_onlyLogged h (baseNameOf fileName) patterns w1) as Hframe;
      revert Hframe; unfold onlyLogged; run;
      destruct (some f patterns w1) as [[m|e] w1']; cbn; auto
  end.
Qed.

(** X13.  An eligibility check writes to the output channel and nowhere
    else: the cache, the configuration, the file system and the window
    are as they were, and the lines already in the channel stay. *)
Theorem isBoostEnabledForFile_only_logs (h : Host) (fileName : jsstring) (w : World) :
  onlyLogged w (after (isBoostEnabledForFile h fileName) w)
  /\ exists lines,
       outputChannel (after (isBoostEnabledForFile h fileName) w)
       = outputChannel w ++ lines.
Proof.
  unfold isBoostEnabledForFile.
  destruct (get_filePatterns (configuration w) [lit "*.prompt.md"])
    as [| |patterns] eqn:Hpatterns; run; rewrite Hpatterns; cbn [fst snd].
  - split; [unfold onlyLogged; cbn; auto | eexists; reflexivity].
  - split; [unfold onlyLogged; cbn; auto | eexists; reflexivity].
  - destruct (Nat.eqb (length patterns) 0); cbn [fst snd].
    { split; [unfold onlyLogged; cbn; auto | eexists; reflexivity]. }
    destruct (includes patterns (lit "*")); cbn [fst snd].
    { split; [unfold onlyLogged; cbn; auto | eexists; reflexivity]. }
    match goal with
    | |- context [some ?f patterns ?w1] =>
        pose proof (some_onlyLogged h (baseNameOf fileName) patterns w1) as Hframe;
        pose proof (some_appends h (baseNameOf fileName) patterns w1) as Hlines;
        revert Hframe Hlines; unfold onlyLogged; run;
        destruct (some f patterns w1) as [[m|e] w1']; cbn [fst snd]
    end.
    + cbn. intros (Hc & Hcfg & Hfs & Hwin) [lines Hlines]. split; [auto|].
      rewrite Hlines. eexists. rewrite <- !app_assoc. reflexivity.
    + cbn. intros (Hc & Hcfg & Hfs & Hwin) [lines Hlines]. split; [auto|].
      rewrite Hlines. eexists. rewrite <- !app_assoc. reflexivity.
Qed.

(** X14.  When a check has refused a file, the message about the patterns
    is the configured patterns joined by ", ": the check refuses only
    under a list of patterns that is not empty, so the message neither
    throws nor takes its "(empty ...)" form. *)
Theorem getEnabledPatternsMessage_after_refusal (h : Host) (fileName : jsstring)
    (w : World) :
  outcome (isBoostEnabledForFile h fileName) w = Normal false ->
  exists patterns,
    patternsAt w = Value patterns
    /\ patterns <> []
    /\ outcome (isBoostEnabledForFile h fileName ;;; getEnabledPatternsMessage) w
       = Normal (join patterns (lit ", ")).
Proof.
  intros Hrefused.
  destruct (isBoostEnabledForFile_frame h fileName w) as (_ & Hcfg & _).
  destruct (outcome_bind (isBoostEnabledForFile h fileName)
              (fun _ => getEnabledPatternsMessage) w false Hrefused) as [Hout _].
  rewrite Hout. clear Hout.
  remember (after (isBoostEnabledForFile h fileName) w) as w1 eqn:Hw1.
  clear Hw1.
  unfold getEnabledPatternsMessage. run. rewrite Hcfg.
  revert Hrefused. unfold patternsAt, isBoostEnabledForFile. run.
  destruct (get_filePatterns (configuration w) [lit "*.prompt.md"])
    as [| |patterns]; cbn [fst snd]; try discriminate.
  destruct patterns as [|p patterns]; cbn [length Nat.eqb fst snd];
    [discriminate|].
  intros _. exists (p :: patterns). repeat split. discriminate.
Qed.

Lemma getEnabledPatternsMessage_after_refusal_witness :
  let w := world [] (Value [lit "*.prompt.md"; lit "*.txt"]) emptyString Absent in
  exists patterns,
    patternsAt w = Value patterns
    /\ patterns <> []
    /\ outcome (isBoostEnabledForFile host (lit "notes.md") ;;;
                getEnabledPatternsMessage) w
       = Normal (join patterns (lit ", ")).
Proof.
  cbv zeta. apply getEnabledPatternsMessage_after_refusal. reflexivity.
Defined.

(* ================================================================== *)
(** ** Further properties: boost workflow *)

Lemma forAwait_failingAfter (chunks : list jsstring) (err : JsError)
    (enhanced : jsstring) :
  forAwait (failingAfter chunks err) enhanced = Throw err.
Proof.
  revert enhanced. induction chunks as [|chunk rest IH]; intros enhanced;
    cbn [failingAfter fold_right forAwait]; [reflexivity | apply IH].
Qed.

(** X15.  A stream that throws part-way loses nothing of the caller's
    text: whatever fragments arrived before the throw, the boost returns
    the prompt it was given, with status [failed]. *)
Theorem boostPrompt_stream_throws (h : Host) (promptText : jsstring)
    (model : LanguageModelChat) (context : ExtensionContext) (w : World)
    (chunks : list jsstring) (err : JsError) :
  sendRequest model (requestMessages (instructionsAt h context w) promptText)
    = Normal (Some {| text := failingAfter chunks err |}) ->
  outcome (boostPrompt h promptText model context) w
  = Normal {| result := promptText; status := failed |}.
Proof.
  intros Hsend. rewrite boostPrompt_run, Hsend.
  unfold classify. cbn [text]. now rewrite forAwait_failingAfter.
Qed.

Lemma boostPrompt_stream_throws_witness :
  outcome (boostPrompt host (lit "fix my bug")
             (endpoint (lit "gpt-x") (lit "GPT X")
                (Normal (Some {| text := failingAfter [lit "Please "; lit "descr"]
                                           (lit "Error: socket closed") |})))
             storage)
    (world [] (Value [lit "*.prompt.md"]) emptyString Absent)
  = Normal {| result := lit "fix my bug"; status := failed |}.
Proof.
  apply (boostPrompt_stream_throws host (lit "fix my bug")
           (endpoint (lit "gpt-x") (lit "GPT X")
              (Normal (Some {| text := failingAfter [lit "Please "; lit "descr"]
                                         (lit "Error: socket closed") |})))
           storage (world [] (Value [lit "*.prompt.md"]) emptyString Absent)
           [lit "Please "; lit "descr"] (lit "Error: socket closed")).
  reflexivity.
Defined.

Lemma classify_usable (promptText : jsstring)
    (answer : Completion (option LanguageModelChatResponse)) :
  match status (classify promptText answer) with
  | success => trim (result (classify promptText answer)) <> []
  | failed => result (classify promptText answer) = promptText
  | terminated => False
  end.
Proof.
  unfold classify.
  destruct answer as [[response|]|err]; cbn [status result]; try reflexivity.
  destruct (forAwait (text response) emptyString) as [enhanced|err];
    cbn [status result]; try reflexivity.
  destruct (truthy (trim enhanced)) eqn:E; cbn [status result];
    [now apply truthy_nonempty | reflexivity].
Qed.


(** The world a read of the instruction file leaves: the one it found, with
    one more log line when the file is there and cannot be read. *)
Lemma readInstructionFile_after (h : Host) (context : ExtensionContext) (w : World) :
  readInstructionFile h context w
  = (Normal (instructionsAt h context w),
     match fs w (getInstructionFilePath h context) with
     | Unreadable err => after (appendLine (LogErrorReading err)) w
     | Absent | File _ => w
     end).
Proof.
  unfold readInstructionFile, instructionsAt, existsSync, readFileSync. run.
  destruct (fs w (getInstructionFilePath h context)) eqn:E; cbn; rewrite ?E;
    reflexivity.
Qed.

(** X17.  A boost shows nothing and stores nothing: it leaves the cache,
    the configuration, the file system and the window as they were, and
    only adds lines to the output channel. *)
Theorem boostPrompt_only_logs (h : Host) (promptText : jsstring)
    (model : LanguageModelChat) (context : ExtensionContext) (w : World) :
  onlyLogged w (after (boostPrompt h promptText model context) w)
  /\ exists lines,
       outputChannel (after (boostPrompt h promptText model context) w)
       = outputChannel w ++ lines
       /\ In (LogBoosting (length promptText)) lines.
Proof.
  unfold boostPrompt, onlyLogged. run.
  rewrite readInstructionFile_after. cbn [fst snd].
  destruct (fs w (getInstructionFilePath h context)) as [|content|err0];
    destruct (sendRequest model _) as [[response|]|err]; cbn [fst snd];
    try destruct (forAwait (text response) emptyString) as [enhanced|err'];
    cbn [fst snd];
    try destruct (truthy (trim enhanced)); cbn;
    (split; [auto|]); rewrite <- ?app_assoc; cbn [app];
    (eexists; split; [reflexivity | cbn; auto]).
Qed.

(* ================================================================== *)
(** ** Further properties: the language-model tool *)

(** X18.  The tool returns a result exactly when the selection returns a
    model, and then the result holds one text part, which is the prompt
    itself or a text that is not blank; without a model it shows a
    warning and returns [undefined]; it throws only what the selection
    throws. *)
Theorem invoke_result (h : Host) (context : ExtensionContext)
    (promptText : jsstring) (w : World) :
  match outcome (invoke h context promptText) w with
  | Normal (Some r) =>
      (exists m, outcome (getSelectedLanguageModel h) w = Normal (Some m))
      /\ exists text,
           r = {| content := [ {| value := text |} ] |}
           /\ (text = promptText \/ trim text <> [])
  | Normal None =>
      outcome (getSelectedLanguageModel h) w = Normal None
      /\ window (after (invoke h context promptText) w)
         = window (after (getSelectedLanguageModel h) w)
           ++ [ShowWarningMessage (lit "No model selected, boost cancelled.") []]
  | Throw e => outcome (getSelectedLanguageModel h) w = Throw e
  end.
Proof.
  unfold invoke. run.
  destruct (getSelectedLanguageModel h w) as [[[m|]|e] w1]; cbn [fst snd].
  - pose proof (boostPrompt_run h promptText m context w1) as Hrun.
    pose proof (classify_usable promptText
                  (sendRequest m
                     (requestMessages (instructionsAt h context w1) promptText)))
      as Husable.
    unfold outcome in Hrun.
    destruct (boostPrompt h promptText m context w1) as [[r|e] w2];
      cbn [fst snd] in *; [|discriminate].
    injection Hrun as ->.
    split; [now exists m|]. eexists. split; [reflexivity|].
    destruct (status _); [now right | now left | contradiction].
  - split; reflexivity.
  - reflexivity.
Qed.

(** With a cached preferred model the selection is one log line. *)
Lemma getSelectedLanguageModel_preferred_run (h : Host) (w : World) :
  preferenceAt w <> [] ->
  (exists m0, In m0 (cachedAvailableModels w) /\ name m0 = preferenceAt w) ->
  exists m,
    getSelectedLanguageModel h w
    = (Normal (Some m), after (appendLine (LogUsingPreferred (name m))) w)
    /\ In m (cachedAvailableModels w)
    /\ name m = preferenceAt w.
Proof.
  unfold preferenceAt. intros Hpref Hcached.
  destruct (find_by_name_some _ _ Hcached) as (m & Hfind & Hin & Hname).
  exists m. split; [|now split].
  unfold getSelectedLanguageModel, getAvailableModels, getPreferredModel,
    findModelByName. run.
  rewrite length_eqb_0_false by (intros E; rewrite E in Hin; exact Hin).
  apply truthy_nonempty in Hpref. rewrite Hpref. cbn [fst snd].
  rewrite Hfind. reflexivity.
Qed.

Lemma boostPrompt_frame (h : Host) (promptText : jsstring)
    (model : LanguageModelChat) (context : ExtensionContext) (w : World) :
  onlyLogged w (after (boostPrompt h promptText model context) w).
Proof.
  unfold boostPrompt, onlyLogged. run.
  rewrite readInstructionFile_after. cbn [fst snd].
  destruct (fs w (getInstructionFilePath h context)) as [|content|err0];
    destruct (sendRequest model _) as [[response|]|err]; cbn [fst snd];
    try destruct (forAwait (text response) emptyString) as [enhanced|err'];
    cbn [fst snd];
    try destruct (truthy (trim enhanced)); cbn; auto.
Qed.

(** X19.  With a preference that names a cached model the tool runs
    without any interaction: it returns a text, shows nothing, and leaves
    the configuration and the cache as they were. *)
Theorem invoke_with_preference_silent (h : Host) (context : ExtensionContext)
    (promptText : jsstring) (w : World) :
  preferenceAt w <> [] ->
  (exists m0, In m0 (cachedAvailableModels w) /\ name m0 = preferenceAt w) ->
  (exists text,
     outcome (invoke h context promptText) w
     = Normal (Some {| content := [ {| value := text |} ] |}))
  /\ window (after (invoke h context promptText) w) = window w
  /\ configuration (after (invoke h context promptText) w) = configuration w
  /\ cachedAvailableModels (after (invoke h context promptText) w)
     = cachedAvailableModels w.
Proof.
  intros Hpref Hcached.
  destruct (getSelectedLanguageModel_preferred_run h w Hpref Hcached)
    as (m & Hsel & _).
  unfold invoke. run. rewrite Hsel. run.
  remember {| cachedAvailableModels := cachedAvailableModels w;
              configuration := configuration w;
              fs := fs w;
              outputChannel := outputChannel w ++ [LogUsingPreferred (name m)];
              window := window w |} as w1 eqn:Hw1.
  pose proof (boostPrompt_run h promptText m context w1) as Hrun.
  pose proof (boostPrompt_frame h promptText m context w1) as Hframe.
  unfold outcome, after, onlyLogged in Hrun, Hframe.
  destruct (boostPrompt h promptText m context w1) as [[r|e] w2];
    cbn [fst snd] in *; [|discriminate].
  destruct Hframe as (Hc & Hcfg & _ & Hwin).
  split; [eexists; reflexivity|].
  rewrite Hc, Hcfg, Hwin, Hw1. cbn. auto.
Qed.

Lemma invoke_with_preference_silent_witness :
  let gpt := endpoint (lit "gpt-x") (lit "GPT X") (streaming [lit "Better."]) in
  let w := world [gpt] (Value [lit "*.prompt.md"]) (lit "GPT X") Absent in
  (exists text,
     outcome (invoke host storage (lit "fix my bug")) w
     = Normal (Some {| content := [ {| value := text |} ] |}))
  /\ window (after (invoke host storage (lit "fix my bug")) w) = window w
  /\ configuration (after (invoke host storage (lit "fix my bug")) w) = configuration w
  /\ cachedAvailableModels (after (invoke host storage (lit "fix my bug")) w)
     = cachedAvailableModels w.
Proof.
  cbv zeta. apply invoke_with_preference_silent.
  - vm_compute. discriminate.
  - eexists. split; [left; reflexivity | reflexivity].
Defined.

(* ================================================================== *)
(** ** Further properties: the instruction file on disk *)

Ltac runS :=
  unfold outcomeS, afterS, tryCatchS, bindS, retS, throwS, lift, appendMore,
    setFs, mkdirSync, writeFileSync, existsSync;
  run; cbn [fst snd worldOf laterLines fs].

Ltac crunchS :=
  repeat (runS; cbn [negb];
          repeat match goal with
                 | H : ?x = _ |- context [?x] => rewrite H
                 end).

(** What a call of [ensureInstructionFile] does: it returns, leaves the
    file system [ensuredFs] describes, and touches nothing else of the
    world. *)
Lemma ensureInstructionFile_run (d : Disk) (h : Host) (context : ExtensionContext)
    (s : Session) :
  exists s',
    ensureInstructionFile d h context s = (Normal tt, s')
    /\ fs (worldOf s')
       = ensuredFs d (globalStoragePath context) (getInstructionFilePath h context)
           (fs (worldOf s))
    /\ cachedAvailableModels (worldOf s') = cachedAvailableModels (worldOf s)
    /\ configuration (worldOf s') = configuration (worldOf s)
    /\ outputChannel (worldOf s') = outputChannel (worldOf s)
    /\ window (worldOf s') = window (worldOf s).
Proof.
  unfold ensureInstructionFile, ensuredFs, present, withDirectories, withFile.
  set (dir := globalStoragePath context).
  set (filePath := getInstructionFilePath h context).
  repeat (crunchS;
          match goal with
          | |- context [match fs (worldOf s) ?p with _ => _ end] =>
              destruct (fs (worldOf s) p) eqn:?
          | |- context [match mkdirRefusal d ?f ?p with _ => _ end] =>
              destruct (mkdirRefusal d f p) eqn:?
          | |- context [match writeRefusal d ?f ?p with _ => _ end] =>
              destruct (writeRefusal d f p) eqn:?
          | |- context [if existsb ?g ?l then _ else _] =>
              destruct (existsb g l) eqn:?
          end);
    crunchS; eexists; (split; [reflexivity|]); cbn; auto.
Qed.

Lemma present_withDirectories (d : Disk) (dir : jsstring) (f : jsstring -> FileNode) :
  present (withDirectories d dir f) dir = true.
Proof.
  unfold present, withDirectories. cbn [existsb]. rewrite eqb_refl. cbn [orb].
  now destruct (f dir).
Qed.

Lemma present_withFile (path content : jsstring) (f : jsstring -> FileNode)
    (q : jsstring) :
  present (withFile path content f) q = JS.eqb q path || present f q.
Proof.
  unfold present, withFile. now destruct (JS.eqb q path).
Qed.

(** Ensuring twice is ensuring once. *)
Lemma ensuredFs_idempotent (d : Disk) (dir filePath : jsstring)
    (f : jsstring -> FileNode) :
  ensuredFs d dir filePath (ensuredFs d dir filePath f) = ensuredFs d dir filePath f.
Proof.
  unfold ensuredFs at 2 3.
  destruct (present f dir) eqn:Hdir.
  - destruct (present f filePath) eqn:Hfile.
    + unfold ensuredFs. now rewrite Hdir, Hfile.
    + destruct (writeRefusal d f filePath) eqn:Hwr.
      * unfold ensuredFs. now rewrite Hdir, Hfile, Hwr.
      * unfold ensuredFs.
        rewrite present_withFile, Hdir, orb_true_r. cbv beta iota.
        rewrite present_withFile, eqb_refl. reflexivity.
  - destruct (mkdirRefusal d f dir) eqn:Hmk.
    + unfold ensuredFs. now rewrite Hdir, Hmk.
    + destruct (present (withDirectories d dir f) filePath) eqn:Hfile.
      * unfold ensuredFs. now rewrite present_withDirectories, Hfile.
      * destruct (writeRefusal d (withDirectories d dir f) filePath) eqn:Hwr.
        -- unfold ensuredFs. now rewrite present_withDirectories, Hfile, Hwr.
        -- unfold ensuredFs.
           rewrite present_withFile, present_withDirectories, orb_true_r.
           cbv beta iota. rewrite present_withFile, eqb_refl. reflexivity.
Qed.

(** X20.  Ensuring the instruction file never throws, whatever the disk
    refuses, and it is idempotent on the file system: a second call right
    after the first changes nothing. *)
Theorem ensureInstructionFile_idempotent (d : Disk) (h : Host)
    (context : ExtensionContext) (s : Session) :
  outcomeS (ensureInstructionFile d h context) s = Normal tt
  /\ outcomeS (bindS (ensureInstructionFile d h context)
                 (fun _ => ensureInstructionFile d h context)) s = Normal tt
  /\ fs (worldOf (afterS (bindS (ensureInstructionFile d h context)
                            (fun _ => ensureInstructionFile d h context)) s))
     = fs (worldOf (afterS (ensureInstructionFile d h context) s)).
Proof.
  destruct (ensureInstructionFile_run d h context s) as (s1 & Hrun1 & Hfs1 & _).
  destruct (ensureInstructionFile_run d h context s1) as (s2 & Hrun2 & Hfs2 & _).
  unfold outcomeS, afterS, bindS. rewrite Hrun1, Hrun2. cbn [fst snd].
  repeat split.
  rewrite Hfs2, Hfs1. apply ensuredFs_idempotent.
Qed.




(** X22.  On a disk that refuses nothing, the instruction file exists
    after the call: with the default template when it was missing, and
    with what was there before otherwise. *)
Theorem ensureInstructionFile_creates_default (d : Disk) (h : Host)
    (context : ExtensionContext) (s : Session) :
  (forall f path, mkdirRefusal d f path = None) ->
  (forall f path, writeRefusal d f path = None) ->
  ~ In (getInstructionFilePath h context)
       (globalStoragePath context :: ancestors d (globalStoragePath context)) ->
  fs (worldOf (afterS (ensureInstructionFile d h context) s))
     (getInstructionFilePath h context)
  = match fs (worldOf s) (getInstructionFilePath h context) with
    | Absent => File DEFAULT_BOOST_INSTRUCTIONS
    | node => node
    end
  /\ present (fs (worldOf (afterS (ensureInstructionFile d h context) s)))
       (globalStoragePath context) = true.
Proof.
  intros Hmk Hwr Hnot.
  assert (Hamong : existsb (JS.eqb (getInstructionFilePath h context))
                     (globalStoragePath context
                        :: ancestors d (globalStoragePath context)) = false).
  { destruct (existsb _ _) eqn:E; [|reflexivity].
    apply existsb_exists in E as (q & Hin & Heq). apply eqb_eq in Heq.
    subst q. contradiction. }
  destruct (ensureInstructionFile_run d h context s) as (s1 & Hrun & Hfs & _).
  unfold afterS. rewrite Hrun. cbn [snd]. rewrite Hfs. clear Hrun Hfs.
  set (dir := globalStoragePath context) in *.
  set (filePath := getInstructionFilePath h context) in *.
  set (f := fs (worldOf s)).
  assert (Hsame : withDirectories d dir f filePath = f filePath)
    by (unfold withDirectories; now rewrite Hamong).
  unfold ensuredFs. rewrite Hmk.
  destruct (present f dir) eqn:Hdir.
  - destruct (present f filePath) eqn:Hfile.
    + split; [|assumption]. unfold present in Hfile. now destruct (f filePath).
    + rewrite Hwr. rewrite present_withFile, Hdir, orb_true_r.
      split; [|reflexivity]. unfold withFile. rewrite eqb_refl.
      unfold present in Hfile. now destruct (f filePath).
  - destruct (present (withDirectories d dir f) filePath) eqn:Hfile.
    + rewrite present_withDirectories. split; [|reflexivity].
      rewrite Hsame. unfold present in Hfile. rewrite Hsame in Hfile.
      now destruct (f filePath).
    + rewrite Hwr. rewrite present_withFile, present_withDirectories, orb_true_r.
      split; [|reflexivity]. unfold withFile. rewrite eqb_refl.
      unfold present in Hfile. rewrite Hsame in Hfile. now destruct (f filePath).
Qed.

Lemma ensureInstructionFile_creates_default_witness :
  let s := sessionOf (world [] (Value [lit "*.prompt.md"]) emptyString Absent) in
  fs (worldOf (afterS (ensureInstructionFile obliging host storage) s))
     (getInstructionFilePath host storage)
  = match fs (worldOf s) (getInstructionFilePath host storage) with
    | Absent => File DEFAULT_BOOST_INSTRUCTIONS
    | node => node
    end
  /\ present (fs (worldOf (afterS (ensureInstructionFile obliging host storage) s)))
       (globalStoragePath storage) = true.
Proof.
  cbv zeta. apply ensureInstructionFile_creates_default.
  - reflexivity.
  - reflexivity.
  - intros [E | []]. vm_compute in E. discriminate.
Defined.

(* ================================================================== *)
(** ** Further properties: the context key *)

(** X23.  Without an active editor the determination never throws, not
    even when reading the tabs or matching a pattern throws, and it
    enables the command only for an active tab whose view type contains
    "markdown.preview" and whose label passes the eligibility check; with
    an active editor the answer is the check of its file name, and a throw
    of the check escapes. *)
Theorem determineBoostEnabledForActive_cases (h : Host) (tabs : TabGroups)
    (s : Session) :
  (exists r,
     outcomeS (determineBoostEnabledForActive h tabs None) s = Normal r
     /\ (enabled r = true ->
         exists tab vt,
           tabs = Normal (Some tab)
           /\ viewType tab = Some vt
           /\ stringIncludes vt (lit "markdown.preview") = true
           /\ outcome (isBoostEnabledForFile h (labelOrEmpty (tabLabel tab)))
                (worldOf s) = Normal true
           /\ source r = lit "preview"))
  /\ (forall editor,
        outcomeS (determineBoostEnabledForActive h tabs (Some editor)) s
        = match outcome (isBoostEnabledForFile h (fileName editor)) (worldOf s) with
          | Normal isEnabled =>
              Normal {| enabled := isEnabled; source := lit "editor";
                        name_ := Some (fileName editor) |}
          | Throw e => Throw e
          end).
Proof.
  split.
  - unfold determineBoostEnabledForActive. runS.
    destruct tabs as [[tab|]|e]; runS;
      try (eexists; split; [reflexivity | cbn; discriminate]).
    destruct (viewType tab) as [vt|] eqn:Hvt; runS;
      try (eexists; split; [reflexivity | cbn; discriminate]).
    destruct (truthy vt && stringIncludes vt (lit "markdown.preview")) eqn:Hcond;
      runS; try (eexists; split; [reflexivity | cbn; discriminate]).
    apply andb_true_iff in Hcond as [_ Hinc].
    destruct (isBoostEnabledForFile h (labelOrEmpty (tabLabel tab)) (worldOf s))
      as [[isEnabled|e] w'] eqn:Hcheck; runS;
      try (eexists; split; [reflexivity | cbn; discriminate]).
    eexists. split; [reflexivity|]. cbn [enabled source]. intros ->.
    exists tab, vt. unfold outcome. rewrite Hcheck. auto.
  - intros editor. unfold determineBoostEnabledForActive. runS.
    destruct (isBoostEnabledForFile h (fileName editor) (worldOf s))
      as [[isEnabled|e] w']; reflexivity.
Qed.

Lemma determineBoostEnabledForActive_cases_witness :
  let preview := {| tabLabel := Value (lit "notes.prompt.md");
                    viewType := Some (lit "mainThreadWebview-markdown.preview") |} in
  let s := sessionOf (world [] (Value [lit "*.prompt.md"]) emptyString Absent) in
  exists r,
    outcomeS (determineBoostEnabledForActive host (Normal (Some preview)) None) s
    = Normal r
    /\ enabled r = true
    /\ source r = lit "preview".
Proof.
  cbv zeta.
  destruct (proj1 (determineBoostEnabledForActive_cases host
                     (Normal (Some {| tabLabel := Value (lit "notes.prompt.md");
                                      viewType :=
                                        Some (lit "mainThreadWebview-markdown.preview") |}))
                     (sessionOf (world [] (Value [lit "*.prompt.md"]) emptyString Absent))))
    as (r & Hrun & Hpreview).
  exists r. split; [exact Hrun|].
  assert (Henabled : enabled r = true).
  { vm_compute in Hrun. injection Hrun as <-. reflexivity. }
  split; [exact Henabled|].
  destruct (Hpreview Henabled) as (tab & vt & _ & _ & _ & _ & Hsource).
  exact Hsource.
Defined.

(* ================================================================== *)
(** ** Further properties: readers of the patterns, reads of the file *)

(** X24.  The readers of the configured patterns disagree on a missing
    value: when the lookup gives [null] or [undefined], the eligibility
    check enables every file, while the message about the patterns and
    the log of the patterns throw. *)
Theorem patterns_missing_readers (h : Host) (fileName : jsstring) (s : Session) :
  (patternsAt (worldOf s) = Null \/ patternsAt (worldOf s) = Undefined) ->
  outcome (isBoostEnabledForFile h fileName) (worldOf s) = Normal true
  /\ (exists e, outcome getEnabledPatternsMessage (worldOf s) = Throw e)
  /\ (exists e, outcomeS logPatterns s = Throw e).
Proof.
  unfold patternsAt, isBoostEnabledForFile, getEnabledPatternsMessage, logPatterns.
  runS. intros [E | E]; rewrite E; cbn; repeat split; eexists; reflexivity.
Qed.

Lemma patterns_missing_readers_witness :
  let s := sessionOf (world [] Null emptyString Absent) in
  outcome (isBoostEnabledForFile host (lit "notes.md")) (worldOf s) = Normal true
  /\ (exists e, outcome getEnabledPatternsMessage (worldOf s) = Throw e)
  /\ (exists e, outcomeS logPatterns s = Throw e).
Proof.
  cbv zeta. apply patterns_missing_readers. left. reflexivity.
Defined.

(** X25.  Reading the instruction file changes nothing, except that one
    line is logged when the file is there and cannot be read. *)
Theorem readInstructionFile_effect (h : Host) (context : ExtensionContext) (w : World) :
  after (readInstructionFile h context) w
  = match fs w (getInstructionFilePath h context) with
    | Unreadable err =>
        {| cachedAvailableModels := cachedAvailableModels w;
           configuration := configuration w;
           fs := fs w;
           outputChannel := outputChannel w ++ [LogErrorReading err];
           window := window w |}
    | Absent | File _ => w
    end.
Proof.
  unfold after. rewrite readInstructionFile_after. cbn [snd].
  destruct (fs w (getInstructionFilePath h context)); reflexivity.
Qed.




